(** * Croissant operation graph: Join, Concatenate, Data, and Field.data_type

    A shallow embedding of

      - [ml_croissant/_src/operation_graph/operations/join.py]
      - [ml_croissant/_src/operation_graph/operations/data.py]
      - [mlcroissant/_src/operation_graph/operations/concatenate.py]
      - [ml_croissant/_src/structure_graph/nodes/field.py]

    Python exceptions are values of [exn]; a call that may raise returns
    a [result].  Capabilities the operations call but do not implement
    (the regular-expression engine, the JSON decoder, the rendering of a
    column index, the conversion of a column of decoded values to the
    type the engine gives it) are Section variables.  The tabular
    engine is modelled by [DataFrame] and the handful of its primitives
    the operations use, as they behave on tables of texts. *)

From Stdlib Require Import Ascii String.
From stdpp Require Import gmap strings list pretty.

Open Scope string_scope.
Open Scope list_scope.

(** ** Python outcomes *)

Inductive exn : Type :=
| AssertionError (msg : string)
| NotImplementedError (msg : string)
| IndexError
| KeyError
| ValueError
| TypeError
| NetworkXError
| RecursionError.

Inductive result (A : Type) : Type :=
| Ok (a : A)
| Raise (e : exn).
Arguments Ok {A} a.
Arguments Raise {A} e.

Instance result_ret : MRet result := fun A a => Ok a.

Instance result_bind : MBind result := fun A B k r =>
  match r with
  | Ok a => k a
  | Raise e => Raise e
  end.

(** [assert cond, msg] *)
Definition assert (cond : bool) (msg : string) : result unit :=
  if cond then Ok tt else Raise (AssertionError msg).

Instance exn_eq_dec : EqDecision exn.
Proof. solve_decision. Defined.

(** The double-quote character, used inside f-string messages. *)
Definition dq : string := String (ascii_of_nat 34) EmptyString.

(** ** Sources and transforms *)

Section Nodes.
(** [pattern] is the type of regular expressions a [Transform] can
    carry; [re.compile(p).match(value)] is [re_match p value], giving
    [None] when the pattern does not match at the start of [value] and
    otherwise [match.groups()]: one entry per capture group, [None]
    for a group that took no part in the match. *)
Context {pattern : Type}.

(** Modelled from the spec: [Transform] is declared in
    [structure_graph/nodes/source.py], outside the sources at hand; a
    transform is a regex extraction, its regex possibly absent. *)
Record Transform : Type := mkTransform {
  regex : option pattern
}.

(** Modelled from the spec: [Source] is declared in the same module; a
    source is a reference, the uid of a node followed by a column of
    that node, with the transforms to apply, in order. *)
Record Source : Type := mkSource {
  reference : option (list string);
  apply_transform : list Transform
}.
End Nodes.
Arguments Transform pattern : clear implicits.
Arguments Source pattern : clear implicits.

(** ** join.py: value transforms *)

Section Transforms.
Context {pattern : Type}.
Variable re_match : pattern → string → option (list (option string)).

(** [for group in match.groups(): if group is not None: return group]
    followed by the function's final [return value]. *)
Fixpoint first_group_or (groups : list (option string)) (value : string) : string :=
  match groups with
  | [] => value
  | Some group :: _ => group
  | None :: rest => first_group_or rest value
  end.

Definition apply_transform_fn (value : string) (transform : Transform pattern) : string :=
  match regex transform with
  | Some source_regex =>
      match re_match source_regex value with
      | None => value
      | Some groups => first_group_or groups value
      end
  | None => value
  end.

Definition apply_transforms_fn (value : string) (source : option (Source pattern)) : string :=
  match source with
  | None => value
  | Some source =>
      fold_left apply_transform_fn (apply_transform source) value
  end.
End Transforms.

(** ** Decoded JSON

    What [json.loads] returns: [JObject] is a [dict] in insertion order,
    [JReal] a number with a fractional part or exponent, kept as its
    literal. *)

#[warnings="-register-all"]
Inductive json : Type :=
| JNull
| JBool (b : bool)
| JInt (n : Z)
| JReal (literal : string)
| JString (s : string)
| JArray (items : list json)
| JObject (members : list (string * json)).

Instance json_eq_dec : EqDecision json.
Proof.
  refine (fix go (x y : json) {struct x} : Decision (x = y) :=
    match x, y with
    | JNull, JNull => left _
    | JBool a, JBool b => cast_if (decide (a = b))
    | JInt a, JInt b => cast_if (decide (a = b))
    | JReal a, JReal b => cast_if (decide (a = b))
    | JString a, JString b => cast_if (decide (a = b))
    | JArray a, JArray b => cast_if (@list_eq_dec _ go a b)
    | JObject a, JObject b =>
        cast_if (@list_eq_dec _ (@prod_eq_dec _ _ _ go) a b)
    | _, _ => right _
    end); congruence.
Defined.

(** ** The tabular engine

    A table is an ordered list of column labels and a list of rows.  A
    cell holds a string, any other value, or the missing-value marker
    the engine fills in where a row has nothing for a column. *)

Inductive cell : Type :=
| Str (s : string)
| Val (v : json)
| NaN.

Instance cell_eq_dec : EqDecision cell.
Proof. solve_decision. Defined.

Record DataFrame (L : Type) : Type := mkFrame {
  columns : list L;
  rows : list (list cell)
}.
Arguments mkFrame {L} columns rows.
Arguments columns {L} d.
Arguments rows {L} d.

Section Frames.
Context {L : Type} `{EqDecision L}.

(** [label in df.columns] *)
Definition has_column (label : L) (df : DataFrame L) : bool :=
  bool_decide (label ∈ columns df).

(** Position of a label among the columns (its first occurrence). *)
Definition column_index (label : L) (df : DataFrame L) : option nat :=
  fst <$> list_find (λ c, c = label) (columns df).

(** [df[label] = df[label].transform(fn)]: [fn] is applied to every
    cell of the column, top to bottom; the first exception aborts. *)
Definition transform_column (fn : cell → result cell) (label : L)
    (df : DataFrame L) : result (DataFrame L) :=
  match column_index label df with
  | None => Raise KeyError
  | Some i =>
      rows' ← mapM (λ row : list cell,
                 match row !! i with
                 | Some c => c' ← fn c; Ok (<[i:=c']> row)
                 | None => Ok row
                 end) (rows df);
      Ok (mkFrame (columns df) rows')
  end.
End Frames.

(** A label carried by both sides of a merge gets the side's suffix. *)
Definition overlap_rename (suffix : string) (other : list string) (c : string) : string :=
  if bool_decide (c ∈ other) then c +:+ suffix else c.

(** Rows of [df_right] whose cell at [ri] equals the cell of [l] at
    [li]; two missing keys count as equal, as in the engine. *)
Definition partners (li ri : nat) (df_right : DataFrame string) (l : list cell)
    : list (list cell) :=
  filter (λ r : list cell, r !! ri = l !! li) (rows df_right).

(** The right side of a merged row or header: when both sides name the
    key alike ([same]), the right key at [ri] is not repeated. *)
Definition drop_shared_key {A : Type} (same : bool) (ri : nat) (r : list A) : list A :=
  if same then delete ri r else r.

(** The cells of the column at position [i], top to bottom. *)
Definition column_cells (i : nat) (df : DataFrame string) : list cell :=
  omap (λ row : list cell, row !! i) (rows df).

Definition is_text (c : cell) : bool :=
  match c with
  | Str _ => true
  | _ => false
  end.

Definition is_integer (c : cell) : bool :=
  match c with
  | Val (JInt _) => true
  | _ => false
  end.

(** The engine takes the type of a column from its cells, and refuses
    to merge on a key column of texts against a key column of integers,
    whichever side each is on; a key column without any cell is let
    through. *)
Definition keys_clash (left_keys right_keys : list cell) : bool :=
  match left_keys, right_keys with
  | _ :: _, _ :: _ =>
      (forallb is_text left_keys && forallb is_integer right_keys)
      || (forallb is_integer left_keys && forallb is_text right_keys)
  | _, _ => false
  end.

(** [df_left.merge(df_right, left_on=, right_on=, how="left")].  Key
    columns of texts against integers are refused with a [ValueError].
    Otherwise: rows of the left table in their order, each once per
    partner on the right (in the right table's order), or once with the
    right-side cells missing when it has no partner.  A key label
    common to both sides gives a single column; other labels carried by
    both sides are suffixed [_x] and [_y].
    Cells are compared and copied as they are, which is what the engine
    does on tables of texts; what it does to numbers (an integer equal
    to a real, a column of integers turned into reals when it receives
    missing cells) is not modelled. *)
Definition merge_left (df_left df_right : DataFrame string)
    (left_on right_on : string) : result (DataFrame string) :=
  match column_index left_on df_left, column_index right_on df_right with
  | Some li, Some ri =>
      if keys_clash (column_cells li df_left) (column_cells ri df_right)
      then Raise ValueError
      else
        let same := bool_decide (left_on = right_on) in
        let rcols := drop_shared_key same ri (columns df_right) in
        let lcols := columns df_left in
        let join_row (l : list cell) : list (list cell) :=
          match partners li ri df_right l with
          | [] => [l ++ replicate (length rcols) NaN]
          | ms => (λ r, l ++ drop_shared_key same ri r) <$> ms
          end in
        Ok (mkFrame ((overlap_rename "_x" rcols <$> lcols)
                       ++ (overlap_rename "_y" lcols <$> rcols))
                    (rows df_left ≫= join_row))
  | _, _ => Raise KeyError
  end.

(** ** join.py: the Join operation *)

Section JoinOperation.
Context {pattern : Type}.
Variable re_match : pattern → string → option (list (option string)).
(** How the engine prints a column index inside a message. *)
Variable show_columns : list string → string.

(** [assert x is not None, msg] *)
Definition require {A : Type} (x : option A) (msg : string) : result A :=
  match x with
  | Some a => Ok a
  | None => Raise (AssertionError msg)
  end.

(** [t[i]] on a tuple *)
Definition item (t : list string) (i : nat) : result string :=
  match t !! i with
  | Some x => Ok x
  | None => Raise IndexError
  end.

Definition left_is_none (uid : string) : string :=
  "Left reference for " +:+ dq +:+ uid +:+ dq
    +:+ " is None. It should be a valid reference.".

Definition right_is_none (uid : string) : string :=
  "Right reference for " +:+ dq +:+ uid +:+ dq
    +:+ " is None. It should be a valid reference.".

Definition no_column_name : string :=
  "JOIN operation does not define a column name.".

Definition column_missing_text (key node : string) (df : DataFrame string)
    : string :=
  "Column " +:+ dq +:+ key +:+ dq +:+ " does not exist in node "
    +:+ dq +:+ node +:+ dq +:+ ". Existing columns: "
    +:+ show_columns (columns df).

(** The f-string of a column assertion; [node] is [reference[0]]. *)
Definition column_missing (key : string) (node : result string)
    (df : DataFrame string) : result string :=
  node ← node; Ok (column_missing_text key node df).

(** [assert cond, msg] where building [msg] may itself raise; the
    message is only built when the condition fails. *)
Definition assert_lazy (cond : bool) (msg : result string) : result unit :=
  if cond then Ok tt else (m ← msg; Raise (AssertionError m)).

Definition unsupported (n : nat) : string :=
  "Unsupported: Trying to joing " +:+ pretty n +:+ " pd.DataFrames.".

(** What [Series.transform(apply_transforms_fn, source=left)] does to
    one cell.  A cell that holds no [str] is rejected by the regex
    engine with a [TypeError] as soon as one transform carries a
    regex; with none, the cell comes back untouched. *)
Definition transform_cell (left : Source pattern) (c : cell) : result cell :=
  match c with
  | Str value => Ok (Str (apply_transforms_fn re_match value (Some left)))
  | other =>
      if existsb (λ t, bool_decide (is_Some (regex t))) (apply_transform left)
      then Raise TypeError
      else Ok other
  end.

(** The operand roles after the swap test of [__call__]. *)
Definition roles (left_key right_key : string) (a b : DataFrame string)
    : DataFrame string * DataFrame string :=
  if negb (has_column left_key a) || negb (has_column right_key b)
  then (b, a)
  else (a, b).

(** [Join.__call__] on positional [args] and keywords [left], [right];
    [uid] is [self.node.uid].
    The assignment to [df_left[left_key]] updates the left table in
    place; the value returned is built from the updated table. *)
Definition Join (uid : string) (args : list (DataFrame string))
    (left right : option (Source pattern)) : result (DataFrame string) :=
  match args with
  | [a] => Ok a
  | [a; b] =>
      l ← require left (left_is_none uid);
      lref ← require (reference l) (left_is_none uid);
      r ← require right (right_is_none uid);
      rref ← require (reference r) (right_is_none uid);
      left_key ← item lref 1;
      right_key ← item rref 1;
      let '(df_left, df_right) := roles left_key right_key a b in
      _ ← assert (bool_decide (length lref = 2)) no_column_name;
      _ ← assert_lazy (has_column left_key df_left)
            (column_missing left_key (item lref 0) df_left);
      _ ← assert_lazy (has_column right_key df_right)
            (column_missing right_key (item rref 0) df_right);
      df_left ← transform_column (transform_cell l) left_key df_left;
      merge_left df_left df_right left_key right_key
  | _ => Raise (NotImplementedError (unsupported (length args)))
  end.
End JoinOperation.

(** ** A fragment of the regular-expression engine

    Backtracking matcher for literals, [.], concatenation, [|], greedy
    [*] and capture groups, anchored at the start of the value like
    [re.match].  Groups are numbered by their opening parenthesis.  It
    instantiates [re_match] at concrete patterns. *)

Module PyRe.
Inductive regex : Type :=
| Eps
| Chr (c : ascii)
| AnyChar
| Cat (r1 r2 : regex)
| Alt (r1 r2 : regex)
| Star (r : regex)
| Group (r : regex).

Fixpoint groups_in (r : regex) : nat :=
  match r with
  | Eps | Chr _ | AnyChar => 0
  | Cat r1 r2 | Alt r1 r2 => groups_in r1 + groups_in r2
  | Star r => groups_in r
  | Group r => S (groups_in r)
  end.

Definition captures : Type := list (option string).

(** The text consumed between [before] and its suffix [after]. *)
Definition consumed (before after : string) : string :=
  String.substring 0 (String.length before - String.length after) before.

Definition newline : ascii := ascii_of_nat 10.

(** [run r base s caps k]: match [r] at the start of [s], the first
    group of [r] being number [base]; on success hand the rest of the
    text and the captures to [k], and backtrack when [k] fails.  A
    starred pattern is tried greedily; [n] bounds the number of its
    iterations that consume text by the length of the text, and an
    iteration that consumes nothing is the last one. *)
Fixpoint run (r : regex) (base : nat) (s : string)
    (caps : captures) (k : string → captures → option captures)
    {struct r} : option captures :=
  match r with
  | Eps => k s caps
  | Chr c =>
      match s with
      | String c' s' => if bool_decide (c = c') then k s' caps else None
      | EmptyString => None
      end
  | AnyChar =>
      match s with
      | String c' s' => if bool_decide (c' = newline) then None else k s' caps
      | EmptyString => None
      end
  | Cat r1 r2 =>
      run r1 base s caps (λ s' caps', run r2 (base + groups_in r1) s' caps' k)
  | Alt r1 r2 =>
      match run r1 base s caps k with
      | Some caps' => Some caps'
      | None => run r2 (base + groups_in r1) s caps k
      end
  | Star r1 =>
      (fix loop (n : nat) (s : string) (caps : captures) {struct n}
         : option captures :=
         match run r1 base s caps
                 (λ s' caps',
                    match n with
                    | S n' =>
                        if bool_decide (String.length s' < String.length s)
                        then loop n' s' caps'
                        else k s' caps'
                    | 0 => k s' caps'
                    end) with
         | Some caps' => Some caps'
         | None => k s caps
         end) (String.length s) s caps
  | Group r1 =>
      run r1 (S base) s caps
        (λ s' caps', k s' (<[base := Some (consumed s s')]> caps'))
  end.

Definition re_match (r : regex) (value : string) : option captures :=
  run r 0 value (replicate (groups_in r) None) (λ _ caps, Some caps).

(** The pattern matching exactly the characters of [s]. *)
Fixpoint lit (s : string) : regex :=
  match s with
  | EmptyString => Eps
  | String c s' => Cat (Chr c) (lit s')
  end.
End PyRe.

(** ** concatenate.py: the Concatenate operation *)

(** [pd.DataFrame(dict)] for a dict of equally long lists, one entry per
    column in insertion order; lists of different lengths are refused. *)
Definition DataFrame_of_dict {L : Type} (data : list (L * list cell))
    : result (DataFrame L) :=
  let n := from_option (λ kv, length kv.2) 0 (head data) in
  if forallb (λ kv, bool_decide (length kv.2 = n)) data
  then Ok (mkFrame (data.*1)
             ((λ i, (λ kv, default NaN (kv.2 !! i)) <$> data) <$> seq 0 n))
  else Raise ValueError.

(** Modelled from the spec: the [FileProperty] enumeration is declared
    in [structure_graph/nodes/source.py], outside the sources at hand;
    these are the three members [Concatenate] uses as column labels. *)
Module FileProperty.
Inductive t : Type := filepath | filename | fullpath.

#[export] Instance eq_dec : EqDecision t.
Proof. solve_decision. Defined.
End FileProperty.

(** Modelled from the spec: [core/path.py] is outside the sources at
    hand; a [Path] is a per-file descriptor exposing a file path, a file
    name and a full path.  [os.fspath] of the path-like attributes is
    their text. *)
Module Path.
Record t : Type := mk {
  filepath : string;
  filename : string;
  fullpath : string
}.
End Path.

Definition no_path : string := "No path to concatenate.".

Definition Concatenate (paths : list Path.t) : result (DataFrame FileProperty.t) :=
  _ ← assert (bool_decide (0 < length paths)) no_path;
  DataFrame_of_dict
    [ (FileProperty.filepath, (λ path, Str (Path.filepath path)) <$> paths);
      (FileProperty.filename, (λ path, Str (Path.filename path)) <$> paths);
      (FileProperty.fullpath, (λ path, Str (Path.fullpath path)) <$> paths) ].

(** ** data.py: the Data operation *)

(** Modelled from the spec: [RecordSet] is declared in
    [structure_graph/nodes/record_set.py], outside the sources at hand;
    of a record set, [Data] reads the inline data, the text of a JSON
    array of records, when it has one. *)
Record RecordSet : Type := mkRecordSet {
  rs_uid : string;
  data : option string
}.

(** A value as a table cell. *)
Definition cell_of_json (v : json) : cell :=
  match v with
  | JString s => Str s
  | other => Val other
  end.

(** Labels in order of first appearance. *)
Fixpoint first_seen (seen : list string) (labels : list string) : list string :=
  match labels with
  | [] => []
  | k :: rest =>
      if bool_decide (k ∈ seen) then first_seen seen rest
      else k :: first_seen (k :: seen) rest
  end.

(** [d.get(key)] on a decoded object. *)
Fixpoint member (key : string) (record : list (string * json)) : option json :=
  match record with
  | [] => None
  | (k, v) :: rest => if bool_decide (k = key) then Some v else member key rest
  end.

Definition as_record (v : json) : option (list (string * json)) :=
  match v with
  | JObject members => Some members
  | _ => None
  end.

Definition as_records (v : json) : option (list (list (string * json))) :=
  match v with
  | JArray items => mapM as_record items
  | _ => None
  end.

Section DataOperation.
(** The JSON decoder, what the engine makes of decoded data that is
    not an array of records, and what it makes of the values of one
    column: it takes the type of the column from its values and
    converts them to that type (it keeps a column that holds a text as
    it is, and turns integers into reals in a column where a value is
    missing).  A value is [None] where a record lacks the field. *)
Variable json_loads : string → result json.
Variable from_other : json → result (DataFrame string).
Variable convert_objects : list (option json) → list cell.

(** What [DataFrame.from_records] builds from a list of records: one
    column per field name, in order of first appearance, holding the
    values of that field down the records as the engine converts them.
    The rows are read off the columns, so that records without any
    field give a table without rows. *)
Definition records_table (records : list (list (string * json)))
    : result (DataFrame string) :=
  DataFrame_of_dict
    ((λ k, (k, convert_objects (member k <$> records)))
       <$> first_seen [] (records ≫= fmap fst)).

Definition from_records (decoded : json) : result (DataFrame string) :=
  match as_records decoded with
  | Some records => records_table records
  | None => from_other decoded
  end.

(** [Data.__call__]: no argument besides the node.  [json.loads]
    refuses [None] with a [TypeError]. *)
Definition Data (node : RecordSet) : result (DataFrame string) :=
  match data node with
  | None => Raise TypeError
  | Some text => decoded ← json_loads text; from_records decoded
  end.
End DataOperation.

(** ** field.py: the data type of a Field *)

Record Field : Type := mkField {
  uid : string;
  description : option string;
  field_data_type : option string;
  has_sub_fields : option bool;
  name : string
}.

(** Modelled from the spec: the other node classes are declared
    outside the sources at hand; the structure graph holds nodes of a
    closed set of variants, and [data_type] only tells Fields from the
    rest. *)
Inductive Node : Type :=
| FieldNode (f : Field)
| RecordSetNode (r : RecordSet)
| FileObjectNode (uid : string)
| FileSetNode (uid : string)
| DatasetNode (uid : string).

(** Modelled from the spec: the issue log is kept in [core/issues.py],
    outside the sources at hand; an entry is an error text with the
    node that reported it as context. *)
Record Issue : Type := mkIssue {
  issue_node : string;
  issue_message : string
}.

Section FieldDataType.
(** [constants.ML_COMMONS_DATA_TYPE], the name of the data-type
    property. *)
Variable ML_COMMONS_DATA_TYPE : string.

(** The structure graph as [data_type] sees it: for the uid of each
    node, its predecessors in the order the graph lists them. *)
Implicit Types graph : gmap string (list Node).

(** [self.graph.predecessors(self)]; the graph refuses a node it does
    not hold. *)
Definition predecessors graph (self : Field) : result (list Node) :=
  match graph !! uid self with
  | Some nodes => Ok nodes
  | None => Raise NetworkXError
  end.

Definition no_data_type : string :=
  "The field does not specify any " +:+ ML_COMMONS_DATA_TYPE
    +:+ ", neither does any of its predecessor.".

(** Modelled from the spec: [Node.add_error] is defined in
    [structure_graph/base_node.py], outside the sources at hand; the
    issue log is append-only. *)
Definition add_error (self : Field) (message : string) (issues : list Issue)
    : list Issue :=
  issues ++ [mkIssue (uid self) message].

(** [Field.data_type], threading the issue log.  [depth] is the number
    of nested calls the interpreter still allows; running out of it is
    a [RecursionError]. *)
Fixpoint data_type (depth : nat) graph (self : Field) (issues : list Issue)
    : result (option string * list Issue) :=
  match depth with
  | 0 => Raise RecursionError
  | S depth =>
      match field_data_type self with
      | Some declared => Ok (Some declared, issues)
      | None =>
          nodes ← predecessors graph self;
          match head nodes with
          | Some (FieldNode parent) => data_type depth graph parent issues
          | _ => Ok (None, add_error self no_data_type issues)
          end
      end
  end.
End FieldDataType.

(** ** How the engine prints a short index of text labels *)

Definition index_repr (labels : list string) : string :=
  "Index([" +:+ String.concat ", " ((λ l, "'" +:+ l +:+ "'") <$> labels)
    +:+ "], dtype='object')".

(** ** Vocabulary of the specification *)

(** The first capture group that took part in the match. *)
Definition first_participating (groups : list (option string)) : option string :=
  head (omap id groups).

(** The first capture group holding a non-empty text. *)
Definition first_non_empty (groups : list (option string)) : option string :=
  head (filter (λ g, g ≠ "") (omap id groups)).

(** [part] occurs in [msg]. *)
Definition mentions (msg part : string) : Prop :=
  ∃ before after, msg = before +:+ part +:+ after.

(** Each of the two tables carries both key columns, so that the
    columns alone do not tell the left operand from the right one. *)
Definition ambiguous (left_key right_key : string) (a b : DataFrame string) : Prop :=
  (left_key ∈ columns a ∧ right_key ∈ columns a)
  ∧ (left_key ∈ columns b ∧ right_key ∈ columns b).

(** A value of a column of texts: a text, or nothing where the record
    lacks the field. *)
Definition text_or_absent (v : option json) : Prop :=
  v = None ∨ ∃ s, v = Some (JString s).

(** The cell of such a value: the text, or the missing-value marker. *)
Definition text_cell (v : option json) : cell :=
  match v with
  | Some (JString s) => Str s
  | _ => NaN
  end.

(** The engine keeps a column of texts as it is. *)
Definition keeps_texts (convert_objects : list (option json) → list cell) : Prop :=
  ∀ values, Forall text_or_absent values →
            convert_objects values = text_cell <$> values.



(** [walk graph n self last]: [n] steps lead from [self] to [last],
    each from a Field that declares no data type to the first
    predecessor the graph lists for it, that predecessor being a
    Field. *)
Inductive walk (graph : gmap string (list Node)) : nat → Field → Field → Prop :=
| walk_here (self : Field) : walk graph 0 self self
| walk_up (n : nat) (self parent last : Field) (nodes : list Node) :
    field_data_type self = None →
    graph !! uid self = Some (FieldNode parent :: nodes) →
    walk graph n parent last →
    walk graph (S n) self last.

(** The walk cannot go on from [last]: the graph lists no predecessor
    for it, or lists first a node that is not a Field. *)
Definition walk_ends (graph : gmap string (list Node)) (last : Field) : Prop :=
  ∃ nodes, graph !! uid last = Some nodes
           ∧ ∀ parent, head nodes ≠ Some (FieldNode parent).

(** ** Concrete patterns, sources and tables *)

Module Sample.
Import PyRe.

(** Two groups: any number of [a], then one [b]. *)
Definition a_star_b : regex :=
  Cat (Group (Star (Chr "a"))) (Group (Chr "b")).

(** The literal [id_], then one group taking the rest of the line. *)
Definition id_prefix : regex := Cat (lit "id_") (Group (Star AnyChar)).

Definition users : DataFrame string :=
  mkFrame ["id"; "name"] [[Str "1"; Str "ann"]; [Str "2"; Str "bob"]].

Definition papers : DataFrame string :=
  mkFrame ["id"; "title"] [[Str "2"; Str "p"]; [Str "3"; Str "q"]].

(** Keys of [authors] carry a prefix that [id_prefix] strips. *)
Definition authors : DataFrame string :=
  mkFrame ["by"; "title"]
    [[Str "id_2"; Str "p"]; [Str "id_7"; Str "q"]; [Str "id_2"; Str "r"]].

Definition on_users_id : Source regex := mkSource (Some ["users"; "id"]) [].
Definition on_users_email : Source regex := mkSource (Some ["users"; "email"]) [].
Definition on_papers_id : Source regex := mkSource (Some ["papers"; "id"]) [].
Definition on_authors_by : Source regex :=
  mkSource (Some ["authors"; "by"]) [mkTransform (Some id_prefix)].

Definition two_paths : list Path.t :=
  [Path.mk "/data/a.png" "a.png" "img/a.png";
   Path.mk "/data/b.png" "b.png" "img/b.png"].

Definition quoted (s : string) : string := dq +:+ s +:+ dq.

(** The text of a JSON array of two records, the second without the
    field [y]. *)
Definition inline_text : string :=
  "[{" +:+ quoted "x" +:+ ": 1, " +:+ quoted "y" +:+ ": " +:+ quoted "up"
    +:+ "}, {" +:+ quoted "x" +:+ ": 2}]".

Definition inline : RecordSet := mkRecordSet "points" (Some inline_text).



Definition outer : Field := mkField "rs/outer" None (Some "Text") (Some true) "outer".
Definition inner : Field := mkField "rs/outer/inner" None None (Some true) "inner".
Definition leaf : Field := mkField "rs/outer/inner/leaf" None None None "leaf".
Definition orphan : Field := mkField "rs/orphan" None None None "orphan".

Definition graph : gmap string (list Node) :=
  list_to_map
    [("rs/outer", [RecordSetNode inline]);
     ("rs/outer/inner", [FieldNode outer]);
     ("rs/outer/inner/leaf", [FieldNode inner; FileObjectNode "a.csv"]);
     ("rs/orphan", [RecordSetNode inline; FieldNode outer])].

Definition data_type_property : string := "http://mlcommons.org/schema/dataType".
End Sample.

(** ** Further concrete values *)

Module More.
(** [Sample.authors] joined with [Sample.users] on the stripped key. *)
Definition authors_users : DataFrame string :=
  mkFrame ["by"; "title"; "id"; "name"]
    [[Str "2"; Str "p"; Str "2"; Str "bob"];
     [Str "7"; Str "q"; NaN; NaN];
     [Str "2"; Str "r"; Str "2"; Str "bob"]].

(** A column that needs no conversion: every value stays the object
    it is, as in a column that holds a text, or in a column of integers
    none of which is missing. *)
Definition as_objects (values : list (option json)) : list cell :=
  from_option cell_of_json NaN <$> values.

(** The text of a JSON array of two records of texts, the second
    without the field [tag]. *)
Definition labels_text : string :=
  "[{" +:+ Sample.quoted "id" +:+ ": " +:+ Sample.quoted "1" +:+ ", "
    +:+ Sample.quoted "tag" +:+ ": " +:+ Sample.quoted "up"
    +:+ "}, {" +:+ Sample.quoted "id" +:+ ": " +:+ Sample.quoted "2" +:+ "}]".

Definition labels : RecordSet := mkRecordSet "labels" (Some labels_text).

Definition label_records : list (list (string * json)) :=
  [[("id", JString "1"); ("tag", JString "up")]; [("id", JString "2")]].

(** A decoder that knows the text of [labels]. *)
Definition decode_labels (text : string) : result json :=
  if bool_decide (text = labels_text)
  then Ok (JArray (JObject <$> label_records))
  else Raise ValueError.

End More.

(** A row of three texts read back as a path descriptor. *)
Definition path_of_row (row : list cell) : option Path.t :=
  match row with
  | [Str filepath; Str filename; Str fullpath] =>
      Some (Path.mk filepath filename fullpath)
  | _ => None
  end.

(** ** openmlconverter/src/converter.py

    The converter from an OpenML description to a Croissant document.
    A [string] is a Python [str], one [ascii] per character (characters
    with code points below 256).  A [dict] is the list of its entries in
    insertion order, each key once. *)

Module Converter.

(** The Python values the converter handles: what a JSON description
    holds, the dates it makes, and [VObject] for any other object (a
    [datetime], say), known by a tag. *)
#[warnings="-register-all"]
Inductive value : Type :=
| VNone
| VBool (b : bool)
| VInt (n : Z)
| VReal (literal : string)
| VStr (s : string)
| VList (items : list value)
| VDict (members : list (string * value))
| VDate (year : Z) (month day : nat)
| VObject (tag : string).

Inductive error : Type :=
| ValueError (msg : string)
| ParserError
| KeyError (key : string)
| TypeError
| AttributeError
| OtherError (name : string).

Inductive outcome (A : Type) : Type :=
| Return (a : A)
| Raise (e : error).
Arguments Return {A} a.
Arguments Raise {A} e.

#[global] Instance outcome_ret : MRet outcome := fun A a => Return a.

#[global] Instance outcome_bind : MBind outcome := fun A B k r =>
  match r with
  | Return a => k a
  | Raise e => Raise e
  end.

Definition REQUIRED_FIELDS : list string := ["name"; "description"].

(** [x is None] *)
Definition is_none (v : value) : bool :=
  match v with
  | VNone => true
  | _ => false
  end.

(** [x == s] for a text [s]: only the same text is equal to it. *)
Definition equals_str (v : value) (s : string) : bool :=
  match v with
  | VStr s' => bool_decide (s' = s)
  | _ => false
  end.

(** [hash(x)] goes through, as a dict key or a set element requires. *)
Definition hashable (v : value) : bool :=
  match v with
  | VList _ | VDict _ => false
  | _ => true
  end.

(** [d.get(key)] *)
Fixpoint dict_get (key : string) (d : list (string * value)) : option value :=
  match d with
  | [] => None
  | (k, v) :: rest => if bool_decide (k = key) then Some v else dict_get key rest
  end.

(** [d[key]] *)
Definition subscript (d : list (string * value)) (key : string) : outcome value :=
  match dict_get key d with
  | Some v => Return v
  | None => Raise (KeyError key)
  end.

Definition _get_field (json_dict : list (string * value)) (field : string)
    (transform : option (value → outcome value)) : outcome value :=
  match dict_get field json_dict with
  | None => Return VNone
  | Some val =>
      match transform with
      | Some transform => transform val
      | None => Return val
      end
  end.

(** *** Names *)

Fixpoint map_chars (f : ascii → ascii) (s : string) : string :=
  match s with
  | EmptyString => EmptyString
  | String c s' => String (f c) (map_chars f s')
  end.

Definition between (lo hi n : nat) : bool := ((lo <=? n) && (n <=? hi))%nat.

(** A character the class [A-Za-z0-9] holds. *)
Definition alnum (c : ascii) : bool :=
  let n := nat_of_ascii c in
  between 65 90 n || between 97 122 n || between 48 57 n.

(** [re.sub("[^A-Za-z0-9]", "_", name)], character by character. *)
Definition substitute (c : ascii) : ascii := if alnum c then c else "_"%char.

(** [str.lower], character by character: the capital letters of the
    first 256 code points are those of ASCII and of the Latin-1 block,
    each 32 below its small letter. *)
Definition lower (c : ascii) : ascii :=
  let n := nat_of_ascii c in
  if between 65 90 n || between 192 214 n || between 216 222 n
  then ascii_of_nat (n + 32)
  else c.

Definition _sanitize_name_string (name : string) : string :=
  map_chars lower (map_chars substitute name).

(** [_sanitize_name_string] called on any value: [re.sub] takes a text
    only. *)
Definition sanitize_value (name : value) : outcome string :=
  match name with
  | VStr s => Return (_sanitize_name_string s)
  | _ => Raise TypeError
  end.

(** *** Persons and files *)

Definition _person (name : value) : value :=
  if is_none name || equals_str name "" then VNone
  else VDict [("@context", VStr "https://schema.org");
              ("@type", VStr "sc:Person");
              ("name", name)].

(** [s.endswith(suffix)] *)
Definition endswith (s suffix : string) : bool :=
  (String.length suffix <=? String.length s)%nat
  && bool_decide (String.substring (String.length s - String.length suffix)
                    (String.length suffix) s = suffix).

Section Formatting.
(** [str(x)] for the values whose text is not spelled out below: reals,
    lists, dicts and other objects. *)
Variable str_other : value → string.

(** A value inside an f-string. *)
Definition py_str (v : value) : string :=
  match v with
  | VStr s => s
  | VNone => "None"
  | VBool true => "True"
  | VBool false => "False"
  | VInt n => pretty n
  | other => str_other other
  end.

Definition _file_object (name url md5 : value) : outcome value :=
  match url with
  | VNone => Return VNone
  | VStr u =>
      kind ← (if endswith u ".arff" then Return ("arff", "text/plain")
              else if endswith u ".pq"
                   then Return ("parquet", "application/vnd.apache.parquet")
                   else Raise (ValueError
                                 ("Unrecognized file extension in url: " +:+ u)));
      Return (VDict [("name", VStr (py_str name +:+ "_" +:+ kind.1));
                     ("@type", VStr "sc:FileObject");
                     ("contentUrl", url);
                     ("encodingFormat", VStr kind.2);
                     ("md5", md5)])
  | _ => Raise AttributeError
  end.

(** *** Data types *)

(** [set(x)]: the elements iterating over [x] gives, all of which must
    be hashable; numbers, dates and other objects cannot be iterated. *)
Definition elements (v : value) : outcome (list value) :=
  match v with
  | VList items =>
      if forallb hashable items then Return items else Raise TypeError
  | VStr s => Return ((λ c, VStr (String c EmptyString)) <$> list_ascii_of_string s)
  | VDict members => Return (VStr <$> members.*1)
  | _ => Raise TypeError
  end.

(** [set(elems) == set(texts)] for a list of texts. *)
Definition same_set (elems : list value) (texts : list string) : bool :=
  forallb (λ x, existsb (equals_str x) texts) elems
  && forallb (λ t, existsb (λ x, equals_str x t) elems) texts.

Definition _datatype (openml_datatype nominal_value : value) : outcome string :=
  boolean ← (if is_none nominal_value then Return false
             else elems ← elements nominal_value;
                  Return (same_set elems ["TRUE"; "FALSE"]
                          || same_set elems ["0"; "1"]));
  if boolean : bool then Return "Boolean"
  else if hashable openml_datatype then
    if equals_str openml_datatype "numeric" then Return "Number"
    else if equals_str openml_datatype "string" then Return "Text"
    else if equals_str openml_datatype "nominal" then Return "Text"
    else Raise (ValueError
                  ("Unknown datatype: " +:+ py_str openml_datatype +:+ "."))
  else Raise TypeError.

(** *** Row identifiers *)

(** One step of the comprehension of [_row_identifier]: the test on
    [is_row_identifier] first, then the reference to the sanitized
    name. *)
Definition row_identifier_of (f : list (string * value)) : outcome (option value) :=
  flag ← subscript f "is_row_identifier";
  if equals_str flag "true" then
    name ← subscript f "name";
    name ← sanitize_value name;
    Return (Some (VStr ("#{" +:+ name +:+ "}")))
  else Return None.

Definition _row_identifier (openml_features : list (list (string * value)))
    (distribution_source : string) : outcome value :=
  found ← mapM row_identifier_of openml_features;
  let row_identifiers := omap id found in
  if bool_decide (1 < length row_identifiers) then Return (VList row_identifiers)
  else match row_identifiers with
       | [only] => Return only
       | _ => Return VNone
       end.
End Formatting.

(** *** Empty values *)

(** [_remove_empty_values] called on a value that is a dict; the dict is
    changed in place, and [remove_empty] gives it as it is afterwards. *)
Fixpoint remove_empty (v : value) : value :=
  match v with
  | VDict members =>
      VDict ((fix each (ms : list (string * value)) : list (string * value) :=
                match ms with
                | [] => []
                | (key, value) :: rest =>
                    match value with
                    | VDict _ => (key, remove_empty value) :: each rest
                    | VNone => each rest
                    | VList [] => each rest
                    | _ => (key, value) :: each rest
                    end
                end) members)
  | other => other
  end.

(** The entries of [dct_] after [_remove_empty_values(dct_)]. *)
Fixpoint _remove_empty_values (dct_ : list (string * value)) : list (string * value) :=
  match dct_ with
  | [] => []
  | (key, value) :: rest =>
      match value with
      | VDict _ => (key, remove_empty value) :: _remove_empty_values rest
      | VNone => _remove_empty_values rest
      | VList [] => _remove_empty_values rest
      | _ => (key, value) :: _remove_empty_values rest
      end
  end.

(** No entry of the dict, nor of a dict it holds as a value, and so on
    down, has [None] or an empty list as its value. *)
Fixpoint no_empty_value (v : value) : bool :=
  match v with
  | VDict members =>
      (fix each (ms : list (string * value)) : bool :=
         match ms with
         | [] => true
         | (_, value) :: rest =>
             match value with
             | VNone => false
             | VList [] => false
             | _ => no_empty_value value && each rest
             end
         end) members
  | _ => true
  end.

(** Dicts nested in dicts, counted. *)
Fixpoint dict_depth (v : value) : nat :=
  match v with
  | VDict members =>
      S ((fix each (ms : list (string * value)) : nat :=
            match ms with
            | [] => 0
            | (_, value) :: rest => dict_depth value `max` each rest
            end) members)
  | _ => 0
  end.

(** *** Dates *)

Section Dates.
(** [dateutil.parser.parse], [int] on a text and [datetime.date]. *)
Variable dateutil_parse : value → outcome value.
Variable int_of : string → outcome Z.
Variable date_of : Z → nat → nat → outcome value.
Variable str_other : value → string.

(** [len(x)] *)
Definition len (v : value) : outcome nat :=
  match v with
  | VStr s => Return (String.length s)
  | VList items => Return (length items)
  | VDict members => Return (length members)
  | _ => Raise TypeError
  end.

(** [x.startswith(prefix)] *)
Definition startswith (v : value) (prefix : string) : outcome bool :=
  match v with
  | VStr s => Return (String.prefix prefix s)
  | _ => Raise AttributeError
  end.

Definition unknown_format (value : value) : string :=
  "Unknown date/datetime format: " +:+ py_str str_other value.

Definition _lenient_date_parser (value : value) : outcome Converter.value :=
  _ ← match dateutil_parse value with
      | Return _ => Return tt
      | Raise ParserError => Return tt
      | Raise e => Raise e
      end;
  n ← len value;
  year_only ← (if bool_decide (n = 4) then
                 s19 ← startswith value "19";
                 if s19 : bool then Return true else startswith value "20"
               else Return false);
  if year_only : bool then
    match value with
    | VStr s => year ← int_of s; date_of year 1 1
    | _ => Raise TypeError
    end
  else Raise (ValueError (unknown_format value)).
End Dates.

(** *** The conversion *)

(** [d[key] = v] for a key the dict has. *)
Fixpoint dict_set (key : string) (v : value) (d : list (string * value))
    : list (string * value) :=
  match d with
  | [] => []
  | (k, x) :: rest =>
      if bool_decide (k = key) then (k, v) :: rest
      else (k, x) :: dict_set key v rest
  end.

(** [any(texts)]: some text is not empty. *)
Definition any_text (texts : list string) : bool :=
  existsb (λ t, negb (bool_decide (t = ""))) texts.

(** The transform of the creator: a person per item of a list, or one
    person. *)
Definition creators (v : value) : outcome value :=
  match v with
  | VList items => Return (VList (_person <$> items))
  | _ => Return (_person v)
  end.

(** [x + text] *)
Definition plus_text (v : value) (text : string) : outcome value :=
  match v with
  | VStr s => Return (VStr (s +:+ text))
  | _ => Raise TypeError
  end.

Definition context : value :=
  VDict [("@vocab", VStr "https://schema.org/");
         ("sc", VStr "https://schema.org/");
         ("ml", VStr "http://mlcommons.org/schema/");
         ("recordSet", VStr "ml:RecordSet");
         ("field", VStr "ml:Field")].

(** The second pass of [convert]: [_remove_empty_values] on each record
    set of the document. *)
Definition clean_record_sets (croissant : list (string * value))
    : outcome (list (string * value)) :=
  record_sets ← subscript croissant "recordSet";
  match record_sets with
  | VList items =>
      cleaned ← mapM (λ recordSet,
                   match recordSet with
                   | VDict members => Return (VDict (_remove_empty_values members))
                   | _ => Raise AttributeError
                   end) items;
      Return (dict_set "recordSet" (VList cleaned) croissant)
  | _ => Raise TypeError
  end.

Section Convert.
Variable str_other : value → string.
Variable dateutil_parse : value → outcome value.
(** [langcodes.find(v).language] *)
Variable language_of : value → outcome value.
Variable int_of : string → outcome Z.
Variable date_of : Z → nat → nat → outcome value.

(** One entry of the list of fields, for the feature [feat]. *)
Definition field_of (distribution_source : string) (feat : list (string * value))
    : outcome value :=
  name ← subscript feat "name";
  name ← sanitize_value name;
  data_type ← subscript feat "data_type";
  dataType ← _datatype str_other data_type
                (default VNone (dict_get "nominal_value" feat));
  raw_name ← subscript feat "name";
  Return (VDict [("name", VStr name);
                 ("@type", VStr "ml:Field");
                 ("dataType", VStr dataType);
                 ("source", VStr ("#{" +:+ distribution_source +:+ "/"
                                    +:+ py_str str_other raw_name +:+ "}"))]).

Definition convert (openml_dataset : list (string * value))
    (openml_features : list (list (string * value)))
    : outcome (list (string * value)) :=
  let _ds field transform := _get_field openml_dataset field transform in
  required ← mapM (λ field, v ← _ds field None; Return (field, v)) REQUIRED_FIELDS;
  let missing_fields :=
    omap (λ fv : string * value, if is_none fv.2 then Some fv.1 else None)
      required in
  if any_text missing_fields then
    Raise (ValueError ("Required fields missing: "
                         +:+ String.concat " " missing_fields +:+ "."))
  else
    name ← _ds "name" None;
    url ← _ds "url" None;
    md5 ← _ds "md5_checksum" None;
    file ← _file_object str_other name url md5;
    let distributions := [file] in
    file_name ← match file with
                | VDict members => subscript members "name"
                | _ => Raise TypeError
                end;
    distribution_source ← sanitize_value file_name;
    name ← _ds "name" None;
    description ← _ds "description" None;
    version ← _ds "version" None;
    creator ← _ds "creator" (Some creators);
    contributor ← _ds "contributor" (Some (λ v, Return (_person v)));
    dateCreated ← _ds "upload_date" (Some dateutil_parse);
    dateModified ← _ds "processing_date" (Some dateutil_parse);
    datePublished ← _ds "collection_date"
                      (Some (_lenient_date_parser dateutil_parse int_of date_of
                               str_other));
    inLanguage ← _ds "language" (Some language_of);
    license ← _ds "licence" None;
    creativeWorkStatus ← _ds "status" None;
    keywords ← _ds "tag" None;
    citation ← _ds "citation" None;
    sameAs ← _ds "original_data_url" None;
    id ← _ds "id" None;
    records_name ← _ds "name" (Some (λ v, s ← sanitize_value v; Return (VStr s)));
    records_name ← plus_text records_name "_records";
    key ← _row_identifier openml_features distribution_source;
    fields ← mapM (field_of distribution_source) openml_features;
    let croissant :=
      [("@context", context);
       ("@type", VStr "sc:Dataset");
       ("@language", VStr "en");
       ("name", name);
       ("description", description);
       ("version", version);
       ("creator", creator);
       ("contributor", contributor);
       ("dateCreated", dateCreated);
       ("dateModified", dateModified);
       ("datePublished", datePublished);
       ("inLanguage", inLanguage);
       ("isAccessibleForFree", VBool true);
       ("license", license);
       ("creativeWorkStatus", creativeWorkStatus);
       ("keywords", keywords);
       ("citation", citation);
       ("sameAs", sameAs);
       ("url", VStr ("https://www.openml.org/search?type=data&id="
                       +:+ py_str str_other id));
       ("distribution", VList distributions);
       ("recordSet",
        VList [VDict [("name", records_name);
                      ("@type", VStr "ml:RecordSet");
                      ("source", VStr ("#{" +:+ distribution_source +:+ "}"));
                      ("key", key);
                      ("field", VList fields)]])] in
    clean_record_sets (_remove_empty_values croissant).
End Convert.

(** *** Vocabulary for the properties of the converter *)

(** A small letter, a digit or an underscore. *)
Definition plain (c : ascii) : bool :=
  let n := nat_of_ascii c in
  between 97 122 n || between 48 57 n || bool_decide (n = 95).

Fixpoint all_chars (f : ascii → bool) (s : string) : bool :=
  match s with
  | EmptyString => true
  | String c s' => f c && all_chars f s'
  end.

(** A value [_remove_empty_values] keeps as it is. *)
Definition kept (v : value) : Prop :=
  v ≠ VNone ∧ v ≠ VList [] ∧ ∀ inner, v ≠ VDict inner.

(** [_get_field] without transform: the value of the field, or [None]. *)
Definition plain_field (json_dict : list (string * value)) (field : string) : value :=
  default VNone (dict_get field json_dict).

(** The required fields a dataset lacks, or has as [None]. *)
Definition missing (openml_dataset : list (string * value)) : list string :=
  List.filter (λ field, is_none (plain_field openml_dataset field)) REQUIRED_FIELDS.

(** A feature marked as row identifier. *)
Definition flagged (f : list (string * value)) : bool :=
  match dict_get "is_row_identifier" f with
  | Some flag => equals_str flag "true"
  | None => false
  end.

(** The reference to the column of a feature whose name is a text. *)
Definition reference_of (f : list (string * value)) : value :=
  match dict_get "name" f with
  | Some (VStr name) => VStr ("#{" +:+ _sanitize_name_string name +:+ "}")
  | _ => VNone
  end.

(** A feature with a row-identifier mark and a text as name. *)
Definition described (f : list (string * value)) : Prop :=
  is_Some (dict_get "is_row_identifier" f)
  ∧ ∃ name, dict_get "name" f = Some (VStr name).

End Converter.

(** A small OpenML description, with the feature of the docstring of
    [_row_identifier], and stand-ins for the library calls. *)
Module Openml.
Import Converter.

Definition str_other (v : value) : string := "<object>".

Definition dateutil_parse (v : value) : outcome value :=
  match v with
  | VStr _ => Return (VObject "datetime")
  | _ => Raise TypeError
  end.

Definition language_of (v : value) : outcome value := Return (VStr "en").

(** [int] on a text of decimal digits. *)
Fixpoint digits (s : string) (acc : Z) : outcome Z :=
  match s with
  | EmptyString => Return acc
  | String c s' =>
      let n := nat_of_ascii c in
      if between 48 57 n then digits s' (10 * acc + Z.of_nat (n - 48))
      else Raise (ValueError "invalid literal for int()")
  end.

Definition int_of (s : string) : outcome Z :=
  match s with
  | EmptyString => Raise (ValueError "invalid literal for int()")
  | _ => digits s 0
  end.

Definition date_of (year : Z) (month day : nat) : outcome value :=
  Return (VDate year month day).

Definition survived : list (string * value) :=
  [("index", VStr "1"); ("name", VStr "survived"); ("data_type", VStr "nominal");
   ("nominal_value", VList [VStr "0"; VStr "1"]);
   ("is_target", VStr "true"); ("is_ignore", VStr "false");
   ("is_row_identifier", VStr "false");
   ("number_of_missing_values", VStr "0")].

Definition ticket : list (string * value) :=
  [("index", VStr "0"); ("name", VStr "Ticket No"); ("data_type", VStr "string");
   ("is_row_identifier", VStr "true")].

Definition titanic : list (string * value) :=
  [("id", VInt 40945); ("name", VStr "Titanic");
   ("description", VStr "Passengers of the Titanic");
   ("url", VStr "https://www.openml.org/data/titanic.arff");
   ("collection_date", VStr "1912");
   ("tag", VList [])].

(** [titanic] under another url, and with nothing but its name. *)
Definition titanic_csv : list (string * value) :=
  [("name", VStr "Titanic");
   ("description", VStr "Passengers of the Titanic");
   ("url", VStr "https://www.openml.org/data/titanic.csv")].

Definition titanic_name : list (string * value) := [("name", VStr "Titanic")].

(** The document for [titanic] with the feature [survived]. *)
Definition document : list (string * value) :=
  [("@context", context);
   ("@type", VStr "sc:Dataset"); ("@language", VStr "en");
   ("name", VStr "Titanic");
   ("description", VStr "Passengers of the Titanic");
   ("datePublished", VDate 1912 1 1);
   ("isAccessibleForFree", VBool true);
   ("url", VStr "https://www.openml.org/search?type=data&id=40945");
   ("distribution",
    VList [VDict [("name", VStr "Titanic_arff");
                  ("@type", VStr "sc:FileObject");
                  ("contentUrl", VStr "https://www.openml.org/data/titanic.arff");
                  ("encodingFormat", VStr "text/plain");
                  ("md5", VNone)]]);
   ("recordSet",
    VList [VDict [("name", VStr "titanic_records");
                  ("@type", VStr "ml:RecordSet");
                  ("source", VStr "#{titanic_arff}");
                  ("field",
                   VList [VDict [("name", VStr "survived");
                                 ("@type", VStr "ml:Field");
                                 ("dataType", VStr "Boolean");
                                 ("source", VStr "#{titanic_arff/survived}")]])]])].

End Openml.

(** * Properties *)

Lemma append_assoc (a b c : string) : (a +:+ b) +:+ c = a +:+ b +:+ c.
Proof.
  induction a as [|x a IH]; [done|].
  change (String x ((a +:+ b) +:+ c) = String x (a +:+ b +:+ c)).
  by rewrite IH.
Qed.

Lemma first_group_or_participating groups value :
  first_group_or groups value = default value (first_participating groups).
Proof.
  unfold first_participating.
  induction groups as [|[g|] groups IH]; simpl; auto.
Qed.

(** ** Transforms *)

Section TransformFacts.
Context {pattern : Type}.
Variable re_match : pattern → string → option (list (option string)).

Lemma apply_transform_fn_no_regex value :
  apply_transform_fn re_match value (mkTransform None) = value.
Proof. reflexivity. Qed.

Lemma apply_transform_fn_no_match value transform p :
  regex transform = Some p → re_match p value = None →
  apply_transform_fn re_match value transform = value.
Proof. unfold apply_transform_fn. by intros -> ->. Qed.

Lemma apply_transforms_fn_all_absent value ref transforms :
  Forall (λ t, regex t = None) transforms →
  apply_transforms_fn re_match value (Some (mkSource ref transforms)) = value.
Proof.
  simpl. intros Hall. revert value.
  induction Hall as [|t ts Ht _ IH]; intros value; simpl; [done|].
  unfold apply_transform_fn at 2. rewrite Ht. apply IH.
Qed.
End TransformFacts.

(** C10. Transform application is the identity when there is nothing to
    apply: without a source, or with a source whose transform list is
    empty, [apply_transforms_fn] returns the value unchanged, and
    [apply_transform_fn] with a transform whose regex is absent returns
    the value unchanged. *)
Theorem apply_transforms_nothing_to_apply {pattern : Type}
    (re_match : pattern → string → option (list (option string)))
    (value : string) :
  apply_transforms_fn re_match value None = value
  ∧ (∀ ref, apply_transforms_fn re_match value (Some (mkSource ref [])) = value)
  ∧ apply_transform_fn re_match value (mkTransform None) = value.
Proof. repeat split. Qed.

(** C4, as amended.  For a transform carrying a regex: when the pattern
    does not match, the value comes back unchanged; when it matches, the
    result is the first capture group that took part in the match, be it
    the empty text; when it matches and no group took part, the value
    comes back unchanged. *)
Theorem apply_transform_fn_first_participating {pattern : Type}
    (re_match : pattern → string → option (list (option string)))
    (value : string) (transform : Transform pattern) (p : pattern) :
  regex transform = Some p →
  (re_match p value = None →
     apply_transform_fn re_match value transform = value)
  ∧ (∀ groups group,
       re_match p value = Some groups →
       first_participating groups = Some group →
       apply_transform_fn re_match value transform = group)
  ∧ (∀ groups,
       re_match p value = Some groups →
       first_participating groups = None →
       apply_transform_fn re_match value transform = value).
Proof.
  intros Hre. unfold apply_transform_fn. rewrite Hre.
  split; [by intros ->|].
  split; intros groups; [intros group|]; intros -> Hfirst;
    by rewrite first_group_or_participating, Hfirst.
Qed.

(** C5, as amended.  For a transform carrying a regex, applying it
    twice gives the same result as applying it once exactly when the
    pattern, tried again on the result of the first application, does
    not match it, or matches it without a participating group, or
    matches it with that very result as its first participating group.
    That the first application stripped the prefix it matched does not
    settle it: what is left may match again. *)
Theorem apply_transform_fn_twice {pattern : Type}
    (re_match : pattern → string → option (list (option string)))
    (value : string) (transform : Transform pattern) (p : pattern) :
  regex transform = Some p →
  let once := apply_transform_fn re_match value transform in
  apply_transform_fn re_match once transform = once
  ↔ ∀ groups group,
      re_match p once = Some groups →
      first_participating groups = Some group →
      group = once.
Proof.
  intros Hre once. unfold apply_transform_fn at 1. rewrite Hre.
  destruct (re_match p once) as [groups|] eqn:Hmatch.
  - rewrite first_group_or_participating.
    destruct (first_participating groups) as [group|] eqn:Hfirst; cbn.
    + split.
      * intros -> groups' group' [= <-]. rewrite Hfirst. by intros [= <-].
      * intros Hsame. by apply (Hsame groups group).
    + split; [|done]. intros _ groups' group' [= <-]. by rewrite Hfirst.
  - split; [|done]. by intros _ groups group.
Qed.

(** C5, the claim as written fails: the literal [id_] followed by a
    group for the rest of the line matches the prefix [id_] of
    [id_id_5] and returns what follows it, [id_5]; applied to [id_5] it
    matches again and returns [5]. *)
Lemma apply_transform_fn_twice_counterexample :
  PyRe.re_match Sample.id_prefix "id_id_5" = Some [Some "id_5"]
  ∧ "id_id_5" = "id_" +:+ "id_5"
  ∧ apply_transform_fn PyRe.re_match "id_id_5"
      (mkTransform (Some Sample.id_prefix)) = "id_5"
  ∧ apply_transform_fn PyRe.re_match
      (apply_transform_fn PyRe.re_match "id_id_5"
         (mkTransform (Some Sample.id_prefix)))
      (mkTransform (Some Sample.id_prefix)) = "5"
  ∧ apply_transform_fn PyRe.re_match
      (apply_transform_fn PyRe.re_match "id_id_5"
         (mkTransform (Some Sample.id_prefix)))
      (mkTransform (Some Sample.id_prefix))
    ≠ apply_transform_fn PyRe.re_match "id_id_5"
        (mkTransform (Some Sample.id_prefix)).
Proof. repeat split; vm_compute; congruence. Qed.

(** C4, the claim as written fails: on the value [b], the pattern of
    two groups, any number of [a] then one [b], matches with an empty
    first group and [b] as second group; the first non-empty group is
    [b], and the transform returns the empty text. *)
Lemma first_non_empty_group_counterexample :
  PyRe.re_match Sample.a_star_b "b" = Some [Some ""; Some "b"]
  ∧ first_non_empty [Some ""; Some "b"] = Some "b"
  ∧ apply_transform_fn PyRe.re_match "b"
      (mkTransform (Some Sample.a_star_b)) = ""
  ∧ apply_transform_fn PyRe.re_match "b"
      (mkTransform (Some Sample.a_star_b)) ≠ "b".
Proof. repeat split; vm_compute; congruence. Qed.

Lemma apply_transform_fn_first_participating_witness :
  apply_transform_fn PyRe.re_match "aab"
    (mkTransform (Some Sample.a_star_b)) = "aa".
Proof.
  apply (proj1 (proj2 (apply_transform_fn_first_participating
           PyRe.re_match "aab" (mkTransform (Some Sample.a_star_b))
           Sample.a_star_b eq_refl)) [Some "aa"; Some "b"]);
    vm_compute; reflexivity.
Defined.

Lemma apply_transform_fn_twice_witness :
  apply_transform_fn PyRe.re_match
    (apply_transform_fn PyRe.re_match "id_42"
       (mkTransform (Some Sample.id_prefix)))
    (mkTransform (Some Sample.id_prefix))
  = apply_transform_fn PyRe.re_match "id_42"
      (mkTransform (Some Sample.id_prefix)).
Proof.
  apply (proj2 (apply_transform_fn_twice PyRe.re_match "id_42"
                  (mkTransform (Some Sample.id_prefix)) Sample.id_prefix
                  eq_refl)).
  intros groups group Hmatch. vm_compute in Hmatch. discriminate Hmatch.
Defined.

(** ** Tables *)

Lemma has_column_elem {L : Type} `{EqDecision L} (label : L) (df : DataFrame L) :
  has_column label df = true ↔ label ∈ columns df.
Proof. unfold has_column. apply bool_decide_eq_true. Qed.

Lemma has_column_not_elem {L : Type} `{EqDecision L} (label : L) (df : DataFrame L) :
  has_column label df = false ↔ label ∉ columns df.
Proof. unfold has_column. apply bool_decide_eq_false. Qed.


Lemma elem_column_index {L : Type} `{EqDecision L} (label : L) (df : DataFrame L) :
  label ∈ columns df → ∃ i, column_index label df = Some i.
Proof.
  intros Hin. unfold column_index.
  destruct (list_find_elem_of (λ c, c = label) (columns df) label Hin eq_refl)
    as [[i c] ->].
  by exists i.
Qed.


(** ** Join *)

Section JoinFacts.
Context {pattern : Type}.
Variable re_match : pattern → string → option (list (option string)).
Variable show_columns : list string → string.

(** With both references in place, a two-operand call comes down to
    the role test, the two column assertions, the key transform and
    the merge. *)
Lemma Join_two uid a b l r ln lk rn rk rest :
  reference l = Some [ln; lk] →
  reference r = Some (rn :: rk :: rest) →
  Join re_match show_columns uid [a; b] (Some l) (Some r) =
    let '(df_left, df_right) := roles lk rk a b in
    if has_column lk df_left then
      if has_column rk df_right then
        df_left' ← transform_column (transform_cell re_match l) lk df_left;
        merge_left df_left' df_right lk rk
      else Raise (AssertionError
                    (column_missing_text show_columns rk rn df_right))
    else Raise (AssertionError
                  (column_missing_text show_columns lk ln df_left)).
Proof.
  intros Hl Hr. unfold Join. cbn. rewrite Hl, Hr. cbn.
  destruct (roles lk rk a b) as [df_left df_right]. cbn.
  destruct (has_column lk df_left); cbn; [|done].
  destruct (has_column rk df_right); cbn; done.
Qed.

Lemma roles_swap lk rk a b :
  ¬ ambiguous lk rk a b →
  roles lk rk a b = roles lk rk b a
  ∨ (roles lk rk a b = (b, a) ∧ roles lk rk b a = (a, b)
     ∧ (lk ∉ columns a ∨ rk ∉ columns b)
     ∧ (lk ∉ columns b ∨ rk ∉ columns a)).
Proof.
  unfold ambiguous, roles. intros Hamb.
  destruct (has_column lk a) eqn:Hla, (has_column rk b) eqn:Hrb,
           (has_column lk b) eqn:Hlb, (has_column rk a) eqn:Hra; cbn;
    rewrite ?has_column_elem, ?has_column_not_elem in *;
    try (left; reflexivity);
    try (right; repeat split; auto; fail).
  exfalso. apply Hamb. repeat split; assumption.
Qed.


End JoinFacts.

(** C2, the claim as written fails: a call with a single operand does
    not fail, it returns that operand. *)
Lemma Join_single_operand_counterexample :
  length [Sample.users] ≠ 2
  ∧ Join PyRe.re_match index_repr "rs" [Sample.users] None None
    = Ok Sample.users.
Proof. split; [cbn; lia | reflexivity]. Qed.

(** C2, as amended.  A call with one operand returns that operand
    unchanged; a call with no operand, or with more than two, fails with
    a [NotImplementedError] that tells how many tables it was given. *)
Theorem Join_operand_count {pattern : Type}
    (re_match : pattern → string → option (list (option string)))
    (show_columns : list string → string) (uid : string)
    (args : list (DataFrame string)) (left right : option (Source pattern)) :
  length args ≠ 2 →
  (∀ a, args = [a] → Join re_match show_columns uid args left right = Ok a)
  ∧ (length args ≠ 1 →
       Join re_match show_columns uid args left right
       = Raise (NotImplementedError (unsupported (length args)))).
Proof.
  intros Hnot2. split.
  - by intros a ->.
  - intros Hnot1. destruct args as [|a [|b [|c rest]]]; cbn in *; done.
Qed.

Lemma Join_operand_count_witness :
  Join PyRe.re_match index_repr "rs"
    [Sample.users; Sample.papers; Sample.authors] None None
  = Raise (NotImplementedError "Unsupported: Trying to joing 3 pd.DataFrames.").
Proof.
  apply (Join_operand_count PyRe.re_match index_repr "rs"
           [Sample.users; Sample.papers; Sample.authors] None None);
    cbn; lia.
Defined.

(** C8. When a two-operand call fails on a key column that its operand,
    after the roles are settled, does not carry, the assertion message
    names the column and the node the column was looked for in: the left
    key and the node of the left reference, or, the left key being
    there, the right key and the node of the right reference. *)
Theorem Join_missing_key_message {pattern : Type}
    (re_match : pattern → string → option (list (option string)))
    (show_columns : list string → string) (uid : string)
    (a b df_left df_right : DataFrame string) (l r : Source pattern)
    (ln lk rn rk : string) (rest : list string) :
  reference l = Some [ln; lk] →
  reference r = Some (rn :: rk :: rest) →
  roles lk rk a b = (df_left, df_right) →
  (lk ∉ columns df_left →
     ∃ msg, Join re_match show_columns uid [a; b] (Some l) (Some r)
            = Raise (AssertionError msg)
            ∧ msg = column_missing_text show_columns lk ln df_left
            ∧ mentions msg lk ∧ mentions msg ln)
  ∧ (lk ∈ columns df_left → rk ∉ columns df_right →
     ∃ msg, Join re_match show_columns uid [a; b] (Some l) (Some r)
            = Raise (AssertionError msg)
            ∧ msg = column_missing_text show_columns rk rn df_right
            ∧ mentions msg rk ∧ mentions msg rn).
Proof.
  intros Hl Hr Hroles.
  rewrite (Join_two _ _ uid a b l r ln lk rn rk rest Hl Hr), Hroles.
  split.
  - intros Hmiss. apply has_column_not_elem in Hmiss. rewrite Hmiss.
    eexists. split; [reflexivity|]. split; [reflexivity|].
    unfold column_missing_text. split.
    + exists ("Column " +:+ dq). eexists. by rewrite append_assoc.
    + exists ("Column " +:+ dq +:+ lk +:+ dq +:+ " does not exist in node " +:+ dq).
      eexists. by rewrite !append_assoc.
  - intros Hthere Hmiss. apply has_column_elem in Hthere.
    apply has_column_not_elem in Hmiss. rewrite Hthere, Hmiss.
    eexists. split; [reflexivity|]. split; [reflexivity|].
    unfold column_missing_text. split.
    + exists ("Column " +:+ dq). eexists. by rewrite append_assoc.
    + exists ("Column " +:+ dq +:+ rk +:+ dq +:+ " does not exist in node " +:+ dq).
      eexists. by rewrite !append_assoc.
Qed.

Lemma Join_missing_key_message_witness :
  ∃ msg,
    Join PyRe.re_match index_repr "rs" [Sample.users; Sample.papers]
      (Some Sample.on_users_email) (Some Sample.on_papers_id)
    = Raise (AssertionError msg)
    ∧ msg = column_missing_text index_repr "email" "users" Sample.papers
    ∧ mentions msg "email" ∧ mentions msg "users".
Proof.
  apply (proj1 (Join_missing_key_message PyRe.re_match index_repr "rs"
                  Sample.users Sample.papers Sample.papers Sample.users
                  Sample.on_users_email Sample.on_papers_id
                  "users" "email" "papers" "id" []
                  eq_refl eq_refl eq_refl)).
  apply (bool_decide_unpack _). vm_compute. exact I.
Defined.

(** C1, the claim as written fails: when both tables carry the key
    column, no swap takes place in either order and each call keeps the
    rows of its own first operand. *)
Lemma Join_order_counterexample :
  Join PyRe.re_match index_repr "rs" [Sample.users; Sample.papers]
    (Some Sample.on_users_id) (Some Sample.on_papers_id)
  = Ok (mkFrame ["id"; "name"; "title"]
          [[Str "1"; Str "ann"; NaN]; [Str "2"; Str "bob"; Str "p"]])
  ∧ Join PyRe.re_match index_repr "rs" [Sample.papers; Sample.users]
      (Some Sample.on_users_id) (Some Sample.on_papers_id)
    = Ok (mkFrame ["id"; "title"; "name"]
            [[Str "2"; Str "p"; Str "bob"]; [Str "3"; Str "q"; NaN]])
  ∧ Join PyRe.re_match index_repr "rs" [Sample.users; Sample.papers]
      (Some Sample.on_users_id) (Some Sample.on_papers_id)
    ≠ Join PyRe.re_match index_repr "rs" [Sample.papers; Sample.users]
        (Some Sample.on_users_id) (Some Sample.on_papers_id).
Proof. repeat split; vm_compute; congruence. Qed.

(** C1, as amended.  Unless each of the two tables carries both key
    columns, the two orders of the operands give the same merged table:
    whatever table one order returns, the other returns too. *)
Theorem Join_order_independent {pattern : Type}
    (re_match : pattern → string → option (list (option string)))
    (show_columns : list string → string) (uid : string)
    (a b : DataFrame string) (l r : Source pattern)
    (ln lk rn rk : string) (rest : list string) :
  reference l = Some [ln; lk] →
  reference r = Some (rn :: rk :: rest) →
  ¬ ambiguous lk rk a b →
  ∀ t, Join re_match show_columns uid [a; b] (Some l) (Some r) = Ok t
       ↔ Join re_match show_columns uid [b; a] (Some l) (Some r) = Ok t.
Proof.
  intros Hl Hr Hamb t.
  rewrite (Join_two _ _ uid a b l r ln lk rn rk rest Hl Hr).
  rewrite (Join_two _ _ uid b a l r ln lk rn rk rest Hl Hr).
  destruct (roles_swap lk rk a b Hamb) as [-> | (-> & -> & Hab & Hba)];
    [done|].
  assert (Hfail : ∀ x y : DataFrame string,
            lk ∉ columns x ∨ rk ∉ columns y →
            ¬ (if has_column lk x then
                 if has_column rk y then
                   df_left' ← transform_column (transform_cell re_match l) lk x;
                   merge_left df_left' y lk rk
                 else Raise (AssertionError
                               (column_missing_text show_columns rk rn y))
               else Raise (AssertionError
                             (column_missing_text show_columns lk ln x)))
              = Ok t).
  { intros x y [Hx | Hy].
    - apply has_column_not_elem in Hx. by rewrite Hx.
    - apply has_column_not_elem in Hy. rewrite Hy.
      by destruct (has_column lk x). }
  split; intros Hok; exfalso; revert Hok; by apply Hfail.
Qed.

Lemma Join_order_independent_witness :
  Join PyRe.re_match index_repr "rs" [Sample.users; Sample.authors]
    (Some Sample.on_authors_by) (Some Sample.on_users_id)
  = Ok (mkFrame ["by"; "title"; "id"; "name"]
          [[Str "2"; Str "p"; Str "2"; Str "bob"];
           [Str "7"; Str "q"; NaN; NaN];
           [Str "2"; Str "r"; Str "2"; Str "bob"]]).
Proof.
  apply (Join_order_independent PyRe.re_match index_repr "rs"
           Sample.authors Sample.users
           Sample.on_authors_by Sample.on_users_id
           "authors" "by" "users" "id" [] eq_refl eq_refl).
  - apply (bool_decide_unpack _). vm_compute. exact I.
  - vm_compute. reflexivity.
Defined.







Section JoinMergeFacts.
Context {pattern : Type}.
Variable re_match : pattern → string → option (list (option string)).


End JoinMergeFacts.




(** The merged table of that call, row by row. *)
Example Join_authors_users :
  Join PyRe.re_match index_repr "rs" [Sample.authors; Sample.users]
    (Some Sample.on_authors_by) (Some Sample.on_users_id)
  = Ok (mkFrame ["by"; "title"; "id"; "name"]
          [[Str "2"; Str "p"; Str "2"; Str "bob"];
           [Str "7"; Str "q"; NaN; NaN];
           [Str "2"; Str "r"; Str "2"; Str "bob"]]).
Proof. vm_compute. reflexivity. Qed.

(** ** Concatenate *)

(** C6. Without any input [Concatenate] fails with the assertion error
    "No path to concatenate."; from one or more path descriptors it
    returns a table whose columns are the three path properties, with as
    many rows as inputs, row [i] holding the file path, the file name
    and the full path of input [i]. *)
Theorem Concatenate_table (paths : list Path.t) :
  (1 ≤ length paths)%nat →
  Concatenate [] = Raise (AssertionError "No path to concatenate.")
  ∧ ∃ df,
      Concatenate paths = Ok df
      ∧ columns df = [FileProperty.filepath; FileProperty.filename;
                      FileProperty.fullpath]
      ∧ length (rows df) = length paths
      ∧ ∀ i path, paths !! i = Some path →
          rows df !! i = Some [Str (Path.filepath path);
                               Str (Path.filename path);
                               Str (Path.fullpath path)].
Proof.
  intros Hk. split; [reflexivity|].
  unfold Concatenate.
  rewrite (bool_decide_eq_true_2 (0 < length paths)) by lia.
  cbn. unfold DataFrame_of_dict. cbn.
  rewrite !length_fmap, !bool_decide_eq_true_2 by done. cbn.
  eexists. split; [reflexivity|]. cbn [columns rows].
  split; [reflexivity|]. split.
  - by rewrite length_fmap, length_seq.
  - intros i path Hi.
    rewrite list_lookup_fmap, lookup_seq_lt by by eapply lookup_lt_Some.
    cbn. by rewrite !list_lookup_fmap, Hi.
Qed.

Lemma Concatenate_table_witness :
  ∃ df,
    Concatenate Sample.two_paths = Ok df
    ∧ columns df = [FileProperty.filepath; FileProperty.filename;
                    FileProperty.fullpath]
    ∧ length (rows df) = 2
    ∧ ∀ i path, Sample.two_paths !! i = Some path →
        rows df !! i = Some [Str (Path.filepath path);
                             Str (Path.filename path);
                             Str (Path.fullpath path)].
Proof.
  apply (Concatenate_table Sample.two_paths). cbn. lia.
Defined.

(** ** Data *)

Lemma first_seen_elem (seen labels : list string) (k : string) :
  k ∈ first_seen seen labels ↔ k ∈ labels ∧ k ∉ seen.
Proof.
  revert seen. induction labels as [|x labels IH]; intros seen; cbn.
  - split; [by intros ?%not_elem_of_nil | by intros [?%not_elem_of_nil _]].
  - case_bool_decide as Hx.
    + rewrite IH, elem_of_cons. split; [by intros [Hin Hnot]; split; [right|]|].
      intros [[-> | Hin] Hnot]; [done | by split].
    + rewrite !elem_of_cons, IH, elem_of_cons. split.
      * intros [-> | [Hin Hnot]]; [by split; [left|] | split; [by right|]].
        intros Hseen. apply Hnot. by right.
      * intros [[-> | Hin] Hnot]; [by left|].
        destruct (decide (k = x)) as [-> | Hne]; [by left | right].
        split; [done|]. by intros [? | ?].
Qed.


Lemma member_field (record : list (string * json)) (k : string) (v : json) :
  NoDup record.*1 → (k, v) ∈ record → member k record = Some v.
Proof.
  induction record as [|[k' v'] record IH]; cbn; intros Hnodup Hin.
  - by apply not_elem_of_nil in Hin.
  - apply NoDup_cons in Hnodup as [Hfresh Hnodup].
    apply elem_of_cons in Hin as [[= <- <-] | Hin].
    + by rewrite bool_decide_eq_true_2.
    + case_bool_decide as Hk; [|by apply IH].
      subst k'. exfalso. apply Hfresh.
      by apply (list_elem_of_fmap_2 fst record (k, v)).
Qed.

Lemma member_absent (record : list (string * json)) (k : string) :
  k ∉ record.*1 → member k record = None.
Proof.
  induction record as [|[k' v'] record IH]; cbn; intros Hnot; [done|].
  rewrite elem_of_cons in Hnot.
  case_bool_decide as Hk; [subst k'; exfalso; apply Hnot; by left|].
  apply IH. intros Hin. apply Hnot. by right.
Qed.

Lemma as_records_array (records : list (list (string * json))) :
  as_records (JArray (JObject <$> records)) = Some records.
Proof. cbn. by apply mapM_fmap_Some. Qed.


Lemma DataFrame_of_dict_Ok {L : Type} (data : list (L * list cell)) (n : nat) :
  Forall (λ kv, length kv.2 = n) data →
  DataFrame_of_dict data
  = Ok (mkFrame data.*1
          ((λ i, (λ kv, default NaN (kv.2 !! i)) <$> data)
             <$> seq 0 (match data with [] => 0 | _ => n end))).
Proof.
  intros Hdata. unfold DataFrame_of_dict.
  destruct Hdata as [|kv data Hkv Hdata]; [done|].
  cbn [head from_option]. rewrite Hkv.
  assert (Hall : forallb (λ kv' : L * list cell, bool_decide (length kv'.2 = n))
                   (kv :: data) = true).
  { apply forallb_forall. intros kv' Hin. apply bool_decide_eq_true.
    apply list_elem_of_In in Hin.
    by apply (proj1 (Forall_forall _ _) (Forall_cons_2 _ _ _ Hkv Hdata)). }
  by rewrite Hall.
Qed.


Section DataFacts.
Variable convert_objects : list (option json) → list cell.

(** The table of a list of records, when the conversion keeps the
    length of the columns of these records. *)
Lemma records_table_Ok (records : list (list (string * json))) :
  let labels := first_seen [] (records ≫= fmap fst) in
  (∀ k, k ∈ labels →
        length (convert_objects (member k <$> records)) = length records) →
  records_table convert_objects records
  = Ok (mkFrame labels
          ((λ i, (λ k, default NaN (convert_objects (member k <$> records) !! i))
                   <$> labels)
             <$> seq 0 (match labels with [] => 0 | _ => length records end))).
Proof.
  intros labels Hlength. unfold records_table. fold labels.
  rewrite (DataFrame_of_dict_Ok _ (length records)).
  2:{ apply Forall_fmap, Forall_forall. intros k Hk. by apply Hlength. }
  f_equal. f_equal.
  - rewrite <- list_fmap_compose. apply list_fmap_id.
  - destruct labels; [done|].
    apply list_fmap_ext. intros _ i _. by rewrite <- list_fmap_compose.
Qed.
End DataFacts.



(** ** Field.data_type *)

Section DataTypeFacts.
Variable ML_COMMONS_DATA_TYPE : string.
Variable graph : gmap string (list Node).

Lemma data_type_declared depth self declared issues :
  field_data_type self = Some declared →
  data_type ML_COMMONS_DATA_TYPE (S depth) graph self issues
  = Ok (Some declared, issues).
Proof. cbn. by intros ->. Qed.

Lemma data_type_ends depth last issues :
  field_data_type last = None →
  walk_ends graph last →
  data_type ML_COMMONS_DATA_TYPE (S depth) graph last issues
  = Ok (None, issues ++ [mkIssue (uid last) (no_data_type ML_COMMONS_DATA_TYPE)]).
Proof.
  intros Hnone (nodes & Hnodes & Hhead). cbn.
  rewrite Hnone. unfold predecessors. rewrite Hnodes. cbn.
  destruct nodes as [|[parent| | | |] nodes]; cbn; try done.
  by destruct (Hhead parent).
Qed.

Lemma data_type_walk n self last :
  walk graph n self last →
  ∀ depth issues,
    data_type ML_COMMONS_DATA_TYPE (n + depth) graph self issues
    = data_type ML_COMMONS_DATA_TYPE depth graph last issues.
Proof.
  induction 1 as [self | n self parent last nodes Hnone Hnodes _ IH];
    intros depth issues; [done|].
  cbn. rewrite Hnone. unfold predecessors. rewrite Hnodes. cbn. apply IH.
Qed.
(** Conversely, a call that returns has walked to a Field that declares
    the type returned, or to one where the walk ends. *)
Lemma data_type_returns depth self issues r issues' :
  data_type ML_COMMONS_DATA_TYPE depth graph self issues = Ok (r, issues') →
  ∃ n last,
    walk graph n self last ∧ n < depth
    ∧ match r with
      | Some declared => field_data_type last = Some declared ∧ issues' = issues
      | None =>
          field_data_type last = None ∧ walk_ends graph last
          ∧ issues' = issues
                ++ [mkIssue (uid last) (no_data_type ML_COMMONS_DATA_TYPE)]
      end.
Proof.
  revert self. induction depth as [|depth IH]; intros self; cbn; [done|].
  destruct (field_data_type self) as [declared|] eqn:Hown.
  - intros [= <- <-]. exists 0, self. split; [constructor|]. split; [lia|done].
  - unfold predecessors.
    destruct (graph !! uid self) as [nodes|] eqn:Hnodes; cbn; [|done].
    destruct nodes as [|[parent| | | |] nodes]; cbn.
    2:{ intros Hcall. destruct (IH parent Hcall) as (n & last & Hwalk & Hn & Hr).
        exists (S n), last. split; [by eapply walk_up|]. split; [lia|done]. }
    all: intros [= <- <-]; exists 0, self; split; [constructor|];
      split; [lia|]; split; [done|]; split; [|done];
      eexists; split; [exact Hnodes|]; by intros parent.
Qed.
End DataTypeFacts.

(** C9, the code against the claim.  The Field [rs/orphan] declares no
    data type, and the graph lists two predecessors for it: a record
    set, then the Field [rs/outer], which declares the type Text.  A
    predecessor Field supplies a type; yet [data_type] looks at the
    first predecessor only, finds that it is no Field, returns no type
    and logs that neither the field nor any of its predecessors
    specifies one. *)
Theorem data_type_first_predecessor_only (depth : nat) :
  field_data_type Sample.orphan = None
  ∧ Sample.graph !! uid Sample.orphan
    = Some [RecordSetNode Sample.inline; FieldNode Sample.outer]
  ∧ field_data_type Sample.outer = Some "Text"
  ∧ data_type Sample.data_type_property (S depth) Sample.graph Sample.orphan []
    = Ok (None,
          [mkIssue "rs/orphan"
             "The field does not specify any http://mlcommons.org/schema/dataType, neither does any of its predecessor."]).
Proof. repeat split. Qed.

(** X26. What [data_type] does find: walking up from a Field that
    declares no type to the first predecessor the graph lists for it,
    as long as that is a Field, the first Field on the way that
    declares a type gives the result, and the issue log is left as it
    was.  When the walk reaches a Field that declares none and whose
    first predecessor is absent or no Field, the result is no type, and
    one error is appended to the issue log; its text names the
    data-type property.  The walk may take as many steps as the
    interpreter allows nested calls. *)
Theorem data_type_inherited (ML_COMMONS_DATA_TYPE : string)
    (graph : gmap string (list Node)) (self last : Field)
    (n depth : nat) (issues : list Issue) :
  walk graph n self last →
  n < depth →
  (∀ declared, field_data_type last = Some declared →
     data_type ML_COMMONS_DATA_TYPE depth graph self issues
     = Ok (Some declared, issues))
  ∧ (field_data_type last = None → walk_ends graph last →
     data_type ML_COMMONS_DATA_TYPE depth graph self issues
     = Ok (None,
           issues ++ [mkIssue (uid last) (no_data_type ML_COMMONS_DATA_TYPE)])
     ∧ mentions (no_data_type ML_COMMONS_DATA_TYPE) ML_COMMONS_DATA_TYPE).
Proof.
  intros Hwalk Hdepth.
  replace depth with (n + S (depth - S n)) by lia.
  rewrite (data_type_walk _ _ _ _ _ Hwalk). split.
  - intros declared Hdeclared. by apply data_type_declared.
  - intros Hnone Hends. split; [by apply data_type_ends|].
    by exists "The field does not specify any ", ", neither does any of its predecessor.".
Qed.

Lemma data_type_inherited_witness :
  data_type Sample.data_type_property 1000 Sample.graph Sample.leaf []
  = Ok (Some "Text", [])
  ∧ data_type Sample.data_type_property 1000 Sample.graph Sample.orphan []
    = Ok (None,
          [mkIssue "rs/orphan"
             "The field does not specify any http://mlcommons.org/schema/dataType, neither does any of its predecessor."]).
Proof.
  assert (Hends : walk_ends Sample.graph Sample.orphan).
  { eexists. split; [reflexivity|]. intros parent. cbn. congruence. }
  split.
  - apply (proj1 (data_type_inherited Sample.data_type_property
                    Sample.graph Sample.leaf Sample.outer 2 1000 []
                    (walk_up Sample.graph 1 Sample.leaf Sample.inner
                       Sample.outer [FileObjectNode "a.csv"] eq_refl eq_refl
                       (walk_up Sample.graph 0 Sample.inner Sample.outer
                          Sample.outer [] eq_refl eq_refl
                          (walk_here Sample.graph Sample.outer)))
                    ltac:(lia))).
    reflexivity.
  - apply (proj1 (proj2 (data_type_inherited Sample.data_type_property
                           Sample.graph Sample.orphan Sample.orphan
                           0 1000 []
                           (walk_here Sample.graph Sample.orphan)
                           ltac:(lia))
                    eq_refl Hends)).
Defined.

(** * Further properties of the operations *)

(** ** Transforms, continued *)

(** X1. Transforms apply in order: a source whose transforms are [ts1]
    followed by [ts2] gives what the transforms [ts2] give on the result
    of the transforms [ts1]. *)
Theorem apply_transforms_fn_app {pattern : Type}
    (re_match : pattern → string → option (list (option string)))
    (value : string) (ref1 ref2 ref : option (list string))
    (ts1 ts2 : list (Transform pattern)) :
  apply_transforms_fn re_match value (Some (mkSource ref (ts1 ++ ts2)))
  = apply_transforms_fn re_match
      (apply_transforms_fn re_match value (Some (mkSource ref1 ts1)))
      (Some (mkSource ref2 ts2)).
Proof. cbn. apply fold_left_app. Qed.

(** X2. A value goes through a source untouched when each transform of
    the source either carries no regex or carries a pattern that does
    not match the value. *)
Theorem apply_transforms_fn_pass_through {pattern : Type}
    (re_match : pattern → string → option (list (option string)))
    (value : string) (source : Source pattern) :
  Forall (λ t, ∀ p, regex t = Some p → re_match p value = None)
    (apply_transform source) →
  apply_transforms_fn re_match value (Some source) = value.
Proof.
  cbn. induction 1 as [|t ts Ht _ IH]; cbn; [done|].
  assert (Hstep : apply_transform_fn re_match value t = value).
  { unfold apply_transform_fn. destruct (regex t) as [p|]; [|done].
    by rewrite (Ht p eq_refl). }
  by rewrite Hstep.
Qed.

Lemma apply_transforms_fn_pass_through_witness :
  apply_transforms_fn PyRe.re_match "42" (Some Sample.on_authors_by) = "42".
Proof.
  apply (apply_transforms_fn_pass_through PyRe.re_match "42" Sample.on_authors_by).
  apply Forall_cons. split; [|apply Forall_nil_2].
  intros p Hp. injection Hp as <-. vm_compute. reflexivity.
Defined.

(** X3. A transform never invents text: what it returns is the value
    itself or a capture group of the match of its pattern on the
    value. *)
Theorem apply_transform_fn_value_or_group {pattern : Type}
    (re_match : pattern → string → option (list (option string)))
    (value : string) (transform : Transform pattern) :
  apply_transform_fn re_match value transform = value
  ∨ ∃ p groups,
      regex transform = Some p ∧ re_match p value = Some groups
      ∧ Some (apply_transform_fn re_match value transform) ∈ groups.
Proof.
  unfold apply_transform_fn.
  destruct (regex transform) as [p|] eqn:Hre; [|by left].
  destruct (re_match p value) as [groups|] eqn:Hm; [|by left].
  assert (Hscan : first_group_or groups value = value
                  ∨ Some (first_group_or groups value) ∈ groups).
  { clear Hm. induction groups as [|[g|] groups IH]; cbn.
    - by left.
    - right. apply list_elem_of_here.
    - destruct IH as [IH | IH]; [by left | right].
      by apply list_elem_of_further. }
  destruct Hscan as [Hv | Hg]; [by left | right]. by exists p, groups.
Qed.

(** ** Join, continued *)

Section JoinMoreFacts.
Context {pattern : Type}.
Variable re_match : pattern → string → option (list (option string)).
Variable show_columns : list string → string.



(** What a two-operand call that returns has checked and computed. *)
Lemma Join_two_Ok uid a b l r ln lk rn rk rest df_left df_right t :
  reference l = Some [ln; lk] →
  reference r = Some (rn :: rk :: rest) →
  roles lk rk a b = (df_left, df_right) →
  Join re_match show_columns uid [a; b] (Some l) (Some r) = Ok t →
  lk ∈ columns df_left ∧ rk ∈ columns df_right
  ∧ ∃ df_left',
      transform_column (transform_cell re_match l) lk df_left = Ok df_left'
      ∧ merge_left df_left' df_right lk rk = Ok t.
Proof.
  intros Hl Hr Hroles.
  rewrite (Join_two _ _ uid a b l r ln lk rn rk rest Hl Hr), Hroles.
  destruct (has_column lk df_left) eqn:Hlk; [|done].
  destruct (has_column rk df_right) eqn:Hrk; [|done].
  apply has_column_elem in Hlk, Hrk.
  destruct (transform_column _ lk df_left) as [df_left'|e]; cbn; [|done].
  intros Hmerge. split; [done|]. split; [done|]. by exists df_left'.
Qed.




End JoinMoreFacts.

(** X4. A two-operand call without a left source, or whose left source
    has no reference, fails with the assertion about the left reference,
    whatever the tables; with the left reference in place and the right
    one lacking, it fails with the assertion about the right reference.
    Both messages name the node of the operation. *)
Theorem Join_reference_missing {pattern : Type}
    (re_match : pattern → string → option (list (option string)))
    (show_columns : list string → string) (uid : string)
    (a b : DataFrame string) (left right : option (Source pattern)) :
  (left ≫= reference = None →
     Join re_match show_columns uid [a; b] left right
     = Raise (AssertionError (left_is_none uid)))
  ∧ (is_Some (left ≫= reference) → right ≫= reference = None →
     Join re_match show_columns uid [a; b] left right
     = Raise (AssertionError (right_is_none uid)))
  ∧ mentions (left_is_none uid) uid
  ∧ mentions (right_is_none uid) uid.
Proof.
  split; [|split; [|split]].
  - unfold Join. destruct left as [l|]; cbn; [|done].
    intros Hl. by rewrite Hl.
  - unfold Join. destruct left as [l|]; cbn; [|by intros [? ?]].
    intros [lref Hl]. rewrite Hl. cbn.
    destruct right as [r|]; cbn; [|done]. intros Hr. by rewrite Hr.
  - exists ("Left reference for " +:+ dq). eexists.
    unfold left_is_none. by rewrite append_assoc.
  - exists ("Right reference for " +:+ dq). eexists.
    unfold right_is_none. by rewrite append_assoc.
Qed.

Lemma Join_reference_missing_witness :
  Join PyRe.re_match index_repr "rs" [Sample.users; Sample.papers]
    (Some (mkSource None [])) (Some Sample.on_papers_id)
  = Raise (AssertionError (left_is_none "rs"))
  ∧ Join PyRe.re_match index_repr "rs" [Sample.users; Sample.papers]
      (Some Sample.on_users_id) None
    = Raise (AssertionError (right_is_none "rs")).
Proof.
  split.
  - apply (proj1 (Join_reference_missing PyRe.re_match index_repr "rs"
                    Sample.users Sample.papers
                    (Some (mkSource None [])) (Some Sample.on_papers_id))).
    reflexivity.
  - apply (proj1 (proj2 (Join_reference_missing PyRe.re_match index_repr "rs"
                           Sample.users Sample.papers
                           (Some Sample.on_users_id) None))).
    + eexists. reflexivity.
    + reflexivity.
Defined.

(** X5. The references must name a column.  A left or right reference
    with fewer than two entries makes a two-operand call fail with an
    [IndexError]; a left reference with more than two entries makes it
    fail with the assertion that the join defines no column name, even
    when both tables carry the key columns. *)
Theorem Join_reference_shape {pattern : Type}
    (re_match : pattern → string → option (list (option string)))
    (show_columns : list string → string) (uid : string)
    (a b : DataFrame string) (l r : Source pattern)
    (lref rref : list string) :
  reference l = Some lref →
  reference r = Some rref →
  ((length lref < 2)%nat ∨ (length rref < 2)%nat →
     Join re_match show_columns uid [a; b] (Some l) (Some r) = Raise IndexError)
  ∧ ((2 < length lref)%nat → (2 ≤ length rref)%nat →
     Join re_match show_columns uid [a; b] (Some l) (Some r)
     = Raise (AssertionError no_column_name)).
Proof.
  intros Hl Hr. unfold Join. cbn. rewrite Hl, Hr. cbn. split.
  - intros [Hshort | Hshort].
    + destruct lref as [|x [|y lref]]; cbn in *; [done | done | lia].
    + destruct lref as [|x [|y lref]]; cbn; [done | done |].
      destruct rref as [|u [|v rref]]; cbn in *; [done | done | lia].
  - intros Hlong Hright.
    destruct lref as [|x [|y [|z lref]]]; cbn in *; [lia..|].
    destruct rref as [|u [|v rref]]; cbn in *; [lia..|].
    by destruct (roles y v a b).
Qed.

Lemma Join_reference_shape_witness :
  Join PyRe.re_match index_repr "rs" [Sample.users; Sample.papers]
    (Some (mkSource (Some ["users"; "id"; "extra"]) []))
    (Some Sample.on_papers_id)
  = Raise (AssertionError no_column_name).
Proof.
  apply (proj2 (Join_reference_shape PyRe.re_match index_repr "rs"
                  Sample.users Sample.papers
                  (mkSource (Some ["users"; "id"; "extra"]) [])
                  Sample.on_papers_id
                  ["users"; "id"; "extra"] ["papers"; "id"]
                  eq_refl eq_refl)); cbn; lia.
Defined.

(** X6. A two-operand call returns a table only after all its checks:
    both sources and references are there, the left reference has
    exactly two entries, the right one at least two, each operand, in
    its role, carries its key column, the key transform went through,
    and the table returned is the merge of the transformed left table
    with the right one. *)
Theorem Join_returns_only_checked {pattern : Type}
    (re_match : pattern → string → option (list (option string)))
    (show_columns : list string → string) (uid : string)
    (a b t : DataFrame string) (left right : option (Source pattern)) :
  Join re_match show_columns uid [a; b] left right = Ok t →
  ∃ l r ln lk rn rk rest df_left df_right df_left',
    left = Some l ∧ right = Some r
    ∧ reference l = Some [ln; lk]
    ∧ reference r = Some (rn :: rk :: rest)
    ∧ roles lk rk a b = (df_left, df_right)
    ∧ lk ∈ columns df_left ∧ rk ∈ columns df_right
    ∧ transform_column (transform_cell re_match l) lk df_left = Ok df_left'
    ∧ merge_left df_left' df_right lk rk = Ok t.
Proof.
  intros Hcall.
  destruct left as [l|]; [|done]. destruct right as [r|].
  2:{ unfold Join in Hcall. cbn in Hcall. by destruct (reference l). }
  destruct (reference l) as [lref|] eqn:Hl; [|by unfold Join in Hcall; cbn in Hcall; rewrite Hl in Hcall].
  destruct (reference r) as [rref|] eqn:Hr;
    [|by unfold Join in Hcall; cbn in Hcall; rewrite Hl, Hr in Hcall].
  assert (Hshape : ∃ ln lk rn rk rest, lref = [ln; lk] ∧ rref = rn :: rk :: rest).
  { unfold Join in Hcall. cbn in Hcall. rewrite Hl, Hr in Hcall. cbn in Hcall.
    destruct lref as [|ln [|lk lref]]; cbn in Hcall; [done..|].
    destruct rref as [|rn [|rk rref]]; cbn in Hcall; [done..|].
    destruct (roles lk rk a b). destruct lref; cbn in Hcall; [|done].
    by exists ln, lk, rn, rk, rref. }
  destruct Hshape as (ln & lk & rn & rk & rest & -> & ->).
  destruct (roles lk rk a b) as [df_left df_right] eqn:Hroles.
  destruct (Join_two_Ok re_match show_columns uid a b l r ln lk rn rk rest
              df_left df_right t Hl Hr Hroles Hcall)
    as (Hlk & Hrk & df_left' & Htransform & Hmerge).
  by exists l, r, ln, lk, rn, rk, rest, df_left, df_right, df_left'.
Qed.

Lemma Join_returns_only_checked_witness :
  ∃ lk rk df_left df_right,
    roles lk rk Sample.users Sample.authors = (df_left, df_right)
    ∧ lk ∈ columns df_left ∧ rk ∈ columns df_right.
Proof.
  destruct (Join_returns_only_checked PyRe.re_match index_repr "rs"
              Sample.users Sample.authors More.authors_users
              (Some Sample.on_authors_by) (Some Sample.on_users_id))
    as (l & r & ln & lk & rn & rk & rest & df_left & df_right & df_left'
        & _ & _ & _ & _ & Hroles & Hlk & Hrk & _).
  - vm_compute. reflexivity.
  - by exists lk, rk, df_left, df_right.
Defined.



(** ** Field.data_type, continued *)

(** X8. Whatever [data_type] returns is justified by the walk: a type
    returned is the type declared by a Field the walk reaches, and the
    issue log is then untouched; when no type is returned, the walk has
    ended at a Field that declares none and exactly one error, reported
    by that Field, has been appended.  In both cases the log only
    grows. *)
Theorem data_type_result_justified (ML_COMMONS_DATA_TYPE : string)
    (graph : gmap string (list Node)) (self : Field) (depth : nat)
    (issues issues' : list Issue) (r : option string) :
  data_type ML_COMMONS_DATA_TYPE depth graph self issues = Ok (r, issues') →
  issues `prefix_of` issues'
  ∧ ∃ n last,
      walk graph n self last ∧ (n < depth)%nat
      ∧ match r with
        | Some declared => field_data_type last = Some declared ∧ issues' = issues
        | None =>
            field_data_type last = None ∧ walk_ends graph last
            ∧ issues' = issues
                  ++ [mkIssue (uid last) (no_data_type ML_COMMONS_DATA_TYPE)]
        end.
Proof.
  intros Hcall.
  destruct (data_type_returns _ _ _ _ _ _ _ Hcall) as (n & last & Hwalk & Hn & Hr).
  split; [|by exists n, last].
  destruct r as [declared|].
  - by destruct Hr as [_ ->].
  - destruct Hr as (_ & _ & ->). by apply prefix_app_r.
Qed.

Lemma data_type_result_justified_witness :
  ∃ n last, walk Sample.graph n Sample.leaf last
            ∧ field_data_type last = Some "Text".
Proof.
  destruct (data_type_result_justified Sample.data_type_property Sample.graph
              Sample.leaf 1000 [] [] (Some "Text"))
    as (_ & n & last & Hwalk & _ & Hdeclared & _).
  - vm_compute. reflexivity.
  - by exists n, last.
Defined.

(** X9. The walk is bounded by the depth of nested calls the
    interpreter allows: when it takes at least that many steps, as on a
    cycle of Fields that declare no type, [data_type] neither returns a
    type nor records an error, it raises [RecursionError]. *)
Theorem data_type_recursion_limit (ML_COMMONS_DATA_TYPE : string)
    (graph : gmap string (list Node)) (self last : Field)
    (n depth : nat) (issues : list Issue) :
  walk graph n self last →
  (depth ≤ n)%nat →
  data_type ML_COMMONS_DATA_TYPE depth graph self issues = Raise RecursionError.
Proof.
  intros Hwalk. revert depth.
  induction Hwalk as [self | n self parent last nodes Hnone Hnodes _ IH];
    intros depth Hdepth.
  - by replace depth with 0 by lia.
  - destruct depth as [|depth]; [done|].
    cbn. rewrite Hnone. unfold predecessors. rewrite Hnodes. cbn.
    apply IH. lia.
Qed.

Lemma data_type_recursion_limit_witness :
  data_type Sample.data_type_property 2 Sample.graph Sample.leaf []
  = Raise RecursionError.
Proof.
  apply (data_type_recursion_limit Sample.data_type_property Sample.graph
           Sample.leaf Sample.outer 2 2 []
           (walk_up Sample.graph 1 Sample.leaf Sample.inner
              Sample.outer [FileObjectNode "a.csv"] eq_refl eq_refl
              (walk_up Sample.graph 0 Sample.inner Sample.outer
                 Sample.outer [] eq_refl eq_refl
                 (walk_here Sample.graph Sample.outer)))).
  lia.
Defined.

(** ** Concatenate, continued *)

(** X10. Nothing is lost in concatenation: the path descriptors can be
    read back, in order, from the rows of the table, so that two lists
    of descriptors that give the same table are the same list. *)
Theorem Concatenate_round_trip (paths : list Path.t)
    (df : DataFrame FileProperty.t) :
  Concatenate paths = Ok df →
  mapM path_of_row (rows df) = Some paths
  ∧ ∀ paths', Concatenate paths' = Ok df → paths' = paths.
Proof.
  assert (Hback : ∀ ps d, Concatenate ps = Ok d →
                          mapM path_of_row (rows d) = Some ps).
  { intros ps d. unfold Concatenate.
    destruct (decide (0 < length ps)) as [Hlen | Hlen];
      [|by destruct ps; [|cbn in Hlen; lia]].
    rewrite (bool_decide_eq_true_2 (0 < length ps)) by done.
    cbn. unfold DataFrame_of_dict. cbn.
    rewrite !length_fmap, !bool_decide_eq_true_2 by done. cbn.
    intros [= <-]. cbn [rows]. apply mapM_Some, Forall2_lookup.
    intros i. rewrite list_lookup_fmap.
    destruct (decide (i < length ps)) as [Hi | Hi].
    - rewrite lookup_seq_lt by done. cbn.
      destruct (lookup_lt_is_Some_2 ps i Hi) as [q Hq].
      rewrite Hq. constructor. rewrite !list_lookup_fmap, Hq. cbn.
      by destruct q.
    - rewrite lookup_seq_ge by lia. cbn.
      rewrite (lookup_ge_None_2 ps i) by lia. constructor. }
  intros Hcall. split; [by apply Hback|].
  intros paths' Hcall'. apply Hback in Hcall, Hcall'. congruence.
Qed.

Lemma Concatenate_round_trip_witness :
  mapM path_of_row
    [[Str "/data/a.png"; Str "a.png"; Str "img/a.png"];
     [Str "/data/b.png"; Str "b.png"; Str "img/b.png"]]
  = Some Sample.two_paths.
Proof.
  apply (proj1 (Concatenate_round_trip Sample.two_paths
                  (mkFrame [FileProperty.filepath; FileProperty.filename;
                            FileProperty.fullpath]
                     [[Str "/data/a.png"; Str "a.png"; Str "img/a.png"];
                      [Str "/data/b.png"; Str "b.png"; Str "img/b.png"]])
                  ltac:(vm_compute; reflexivity))).
Defined.

(** ** Data, continued *)

Lemma member_elem (record : list (string * json)) (k : string) (v : json) :
  member k record = Some v → (k, v) ∈ record.
Proof.
  induction record as [|[k' v'] record IH]; cbn; [done|].
  case_bool_decide as Hk.
  - intros [= <-]. subst k'. apply list_elem_of_here.
  - intros Hm. apply list_elem_of_further. by apply IH.
Qed.

Lemma member_texts (record : list (string * json)) (k : string) :
  Forall (λ field : string * json, ∃ s, field.2 = JString s) record →
  text_or_absent (member k record).
Proof.
  intros Htexts. destruct (member k record) as [v|] eqn:Hm; [|by left].
  apply member_elem in Hm.
  destruct (proj1 (Forall_forall _ _) Htexts _ Hm) as [s Hs]. cbn in Hs.
  right. exists s. by rewrite Hs.
Qed.

(** X11. The table of inline data whose records hold texts can be read
    back, the engine keeping a column of texts as it is: a text in the
    row of a record, under the label of a column, is exactly a field of
    that record; no field is lost and none is invented. *)
Theorem Data_round_trip (json_loads : string → result json)
    (from_other : json → result (DataFrame string))
    (convert_objects : list (option json) → list cell)
    (node : RecordSet) (text : string)
    (records : list (list (string * json))) (t : DataFrame string) :
  data node = Some text →
  json_loads text = Ok (JArray (JObject <$> records)) →
  Forall (λ record : list (string * json), NoDup record.*1) records →
  Forall (Forall (λ field : string * json, ∃ s, field.2 = JString s)) records →
  keeps_texts convert_objects →
  Data json_loads from_other convert_objects node = Ok t →
  ∀ i record, records !! i = Some record →
    ∀ k s, (k, JString s) ∈ record
           ↔ ∃ j row, rows t !! i = Some row
                      ∧ columns t !! j = Some k
                      ∧ row !! j = Some (Str s).
Proof.
  intros Hdata Hloads Hdicts Htexts Hkeeps.
  assert (Hcolumn : ∀ k, convert_objects (member k <$> records)
                         = text_cell <$> (member k <$> records)).
  { intros k. apply Hkeeps, Forall_fmap.
    eapply Forall_impl; [exact Htexts|]. intros record Hrecord.
    by apply member_texts. }
  unfold Data. rewrite Hdata, Hloads. cbn [mbind result_bind].
  unfold from_records. rewrite as_records_array, records_table_Ok.
  2:{ intros k _. by rewrite Hcolumn, !length_fmap. }
  intros [= <-] i record Hi k s. cbn [rows columns].
  set (labels := first_seen [] (records ≫= fmap fst)).
  assert (Hdict : NoDup record.*1).
  { exact (proj1 (Forall_lookup _ records) Hdicts i record Hi). }
  assert (Hcell : default NaN (convert_objects (member k <$> records) !! i)
                  = text_cell (member k record)).
  { by rewrite Hcolumn, !list_lookup_fmap, Hi. }
  assert (Hrow : ∀ j, labels !! j = Some k →
            ((λ i, (λ k, default NaN
                           (convert_objects (member k <$> records) !! i))
                     <$> labels)
               <$> seq 0 (match labels with [] => 0 | _ => length records end))
              !! i
            = Some ((λ k, default NaN
                            (convert_objects (member k <$> records) !! i))
                      <$> labels)).
  { intros j Hj. destruct labels as [|x labels']; [done|].
    rewrite list_lookup_fmap, lookup_seq_lt by by eapply lookup_lt_Some.
    done. }
  split.
  - intros Hfield.
    assert (Hk : k ∈ labels).
    { apply first_seen_elem. split; [|apply not_elem_of_nil].
      apply list_elem_of_bind. exists record. split.
      - by apply (list_elem_of_fmap_2 fst record (k, JString s)).
      - by eapply list_elem_of_lookup_2. }
    apply list_elem_of_lookup in Hk as [j Hj].
    exists j. eexists. split; [by apply (Hrow j)|]. split; [done|].
    rewrite list_lookup_fmap, Hj. cbn. rewrite Hcell.
    by rewrite (member_field record k (JString s) Hdict Hfield).
  - intros (j & row & Hrows & Hj & Hat).
    rewrite (Hrow j Hj) in Hrows. injection Hrows as <-.
    rewrite list_lookup_fmap, Hj in Hat. cbn in Hat. rewrite Hcell in Hat.
    destruct (member k record) as [[]|] eqn:Hm; cbn in Hat; try discriminate Hat.
    injection Hat as ->. by apply member_elem.
Qed.

Lemma Data_round_trip_witness :
  ("tag", JString "up") ∈ [("id", JString "1"); ("tag", JString "up")]
  ↔ ∃ j row, [[Str "1"; Str "up"]; [Str "2"; NaN]] !! 0 = Some row
             ∧ ["id"; "tag"] !! j = Some "tag"
             ∧ row !! j = Some (Str "up").
Proof.
  apply (Data_round_trip More.decode_labels (λ _, Raise TypeError)
           More.as_objects More.labels More.labels_text More.label_records
           (mkFrame ["id"; "tag"] [[Str "1"; Str "up"]; [Str "2"; NaN]])
           eq_refl ltac:(vm_compute; reflexivity)).
  - repeat (apply Forall_cons; split;
              [apply (bool_decide_unpack _); vm_compute; exact I|]).
    apply Forall_nil_2.
  - repeat (apply Forall_cons; split;
              [repeat (apply Forall_cons; split; [eexists; reflexivity|]);
               apply Forall_nil_2|]).
    apply Forall_nil_2.
  - intros values Hvalues. unfold More.as_objects.
    apply list_fmap_ext. intros i v Hv.
    destruct (proj1 (Forall_forall _ _) Hvalues v) as [-> | [s ->]];
      [by eapply list_elem_of_lookup_2 | done..].
  - vm_compute. reflexivity.
  - reflexivity.
Defined.

(** * The converter *)

Module ConverterFacts.
Import Converter.

(** ** Names *)

Lemma sanitize_char_plain (c : ascii) : plain (lower (substitute c)) = true.
Proof. destruct c as [[] [] [] [] [] [] [] []]; vm_compute; reflexivity. Qed.

Lemma sanitize_char_fixed (c : ascii) :
  lower (substitute c) = c ↔ plain c = true.
Proof.
  destruct c as [[] [] [] [] [] [] [] []]; vm_compute; split; congruence.
Qed.

Lemma sanitize_cons (c : ascii) (s : string) :
  _sanitize_name_string (String c s)
  = String (lower (substitute c)) (_sanitize_name_string s).
Proof. reflexivity. Qed.

Lemma sanitize_all_plain (name : string) :
  all_chars plain (_sanitize_name_string name) = true.
Proof.
  induction name as [|c name IH]; [done|].
  rewrite sanitize_cons. cbn. by rewrite sanitize_char_plain, IH.
Qed.

(** X12. A sanitized name has as many characters as the name and holds
    nothing but small letters, digits and underscores. *)
Theorem sanitize_name_plain (name : string) :
  String.length (_sanitize_name_string name) = String.length name
  ∧ all_chars plain (_sanitize_name_string name) = true.
Proof.
  split; [|apply sanitize_all_plain].
  induction name as [|c name IH]; [done|].
  rewrite sanitize_cons. cbn. by rewrite IH.
Qed.

(** X13. Sanitizing leaves a name as it is exactly when the name holds
    nothing but small letters, digits and underscores; sanitizing twice
    is therefore the same as sanitizing once. *)
Theorem sanitize_name_idempotent (name : string) :
  (_sanitize_name_string name = name ↔ all_chars plain name = true)
  ∧ _sanitize_name_string (_sanitize_name_string name)
    = _sanitize_name_string name.
Proof.
  assert (Hfixed : ∀ s, _sanitize_name_string s = s ↔ all_chars plain s = true).
  { induction s as [|c s IH]; [done|].
    rewrite sanitize_cons. cbn. rewrite andb_true_iff, <- IH, <- sanitize_char_fixed.
    split; [by intros [= -> ->] | by intros [-> ->]]. }
  split; [apply Hfixed|]. apply Hfixed, sanitize_all_plain.
Qed.

(** ** Empty values *)

Lemma remove_empty_dict (d : list (string * value)) :
  remove_empty (VDict d) = VDict (_remove_empty_values d).
Proof.
  reflexivity.
Qed.

Lemma dict_depth_cons k v rest :
  dict_depth (VDict ((k, v) :: rest))
  = S (dict_depth v `max` pred (dict_depth (VDict rest))).
Proof. reflexivity. Qed.

(** Induction over a dict and the dicts it holds as values. *)
Lemma members_ind (Q : list (string * value) → Prop) :
  Q [] →
  (∀ k inner rest, Q inner → Q rest → Q ((k, VDict inner) :: rest)) →
  (∀ k v rest, (∀ inner, v ≠ VDict inner) → Q rest → Q ((k, v) :: rest)) →
  ∀ d, Q d.
Proof.
  intros Hnil Hdict Hother d.
  assert (Hall : ∀ n d, (dict_depth (VDict d) ≤ n)%nat → Q d).
  { clear d. induction n as [|n IHn]; intros d; [cbn; lia|].
    induction d as [|[k v] rest IHrest]; intros Hdepth; [done|].
    rewrite dict_depth_cons in Hdepth.
    assert (Hrest : Q rest).
    { apply IHrest. destruct rest; cbn in *; lia. }
    destruct v as [| | | | | |inner| |]; try (apply Hother; [done|exact Hrest]).
    apply Hdict; [|exact Hrest]. apply IHn. lia. }
  by apply (Hall (dict_depth (VDict d))).
Qed.

Lemma remove_empty_no_empty (v : value) :
  no_empty_value (remove_empty v) = true.
Proof.
  destruct v as [| | | | | |dct_| |]; try reflexivity.
  rewrite remove_empty_dict.
  induction dct_ as [|k inner rest IHinner IHrest|k v rest Hv IHrest]
    using members_ind; [done|..].
  - cbn [_remove_empty_values]. rewrite remove_empty_dict.
    change (no_empty_value (VDict (_remove_empty_values inner))
            && no_empty_value (VDict (_remove_empty_values rest)) = true).
    by rewrite IHinner, IHrest.
  - destruct v as [| | | | | [|x items] |inner| |]; cbn [_remove_empty_values];
      try exact IHrest; try by destruct (Hv inner).
    all: change (true && no_empty_value (VDict (_remove_empty_values rest)) = true);
      by rewrite IHrest.
Qed.

(** X14. After [_remove_empty_values], no entry of the dict, nor of a
    dict it holds as a value, however deep, has [None] or an empty list
    as its value. *)
Theorem remove_empty_values_clean (dct_ : list (string * value)) :
  no_empty_value (VDict (_remove_empty_values dct_)) = true.
Proof.
  rewrite <- remove_empty_dict. apply remove_empty_no_empty.
Qed.

(** X15. Removing empty values a second time changes nothing. *)
Theorem remove_empty_values_idempotent (dct_ : list (string * value)) :
  _remove_empty_values (_remove_empty_values dct_) = _remove_empty_values dct_.
Proof.
  induction dct_ as [|k inner rest IHinner IHrest|k v rest Hv IHrest]
    using members_ind; [done|..].
  - cbn [_remove_empty_values]. rewrite ?remove_empty_dict.
    cbn [_remove_empty_values]. rewrite ?remove_empty_dict.
    by rewrite IHinner, IHrest.
  - destruct v as [| | | | | [|x items] |inner| |]; cbn [_remove_empty_values];
      try exact IHrest; try by destruct (Hv inner).
    all: by rewrite IHrest.
Qed.

(** X16. [_remove_empty_values] only removes entries and keeps the
    order of the others: the keys left are a sublist of the keys; an
    entry whose value is neither [None], nor an empty list, nor a dict
    stays as it is; an entry whose value is a dict always stays, with
    the dict cleaned, even when that leaves the dict empty. *)
Theorem remove_empty_values_keeps (dct_ : list (string * value)) :
  (_remove_empty_values dct_).*1 `sublist_of` dct_.*1
  ∧ (∀ k v, (k, v) ∈ dct_ → kept v → (k, v) ∈ _remove_empty_values dct_)
  ∧ (∀ k inner, (k, VDict inner) ∈ dct_ →
       (k, VDict (_remove_empty_values inner)) ∈ _remove_empty_values dct_).
Proof.
  induction dct_ as [|[k v] rest (IHsub & IHkept & IHdict)].
  { repeat split; [done|..]; intros; by apply not_elem_of_nil in H. }
  assert (Hcases :
    (_remove_empty_values ((k, v) :: rest) = _remove_empty_values rest
     ∧ (v = VNone ∨ v = VList []))
    ∨ (∃ inner, v = VDict inner
        ∧ _remove_empty_values ((k, v) :: rest)
          = (k, VDict (_remove_empty_values inner)) :: _remove_empty_values rest)
    ∨ (kept v
       ∧ _remove_empty_values ((k, v) :: rest)
         = (k, v) :: _remove_empty_values rest)).
  { destruct v as [| | | | | [|x items] |inner| |]; cbn [_remove_empty_values];
      try (left; split; [done|by auto]);
      try (right; right; by repeat split).
    right; left. exists inner. by rewrite remove_empty_dict. }
  destruct Hcases as [[Heq Hv] | [(inner & Hv & Heq) | [Hv Heq]]];
    rewrite Heq; clear Heq; [|subst v|].
  - split; [by apply sublist_cons|]. split.
    + intros k' v' [Hhead | Hin]%elem_of_cons Hkept; [|by apply IHkept].
      injection Hhead as -> ->. destruct Hkept as (? & ? & ?). by destruct Hv.
    + intros k' inner [Hhead | Hin]%elem_of_cons; [|by apply IHdict].
      injection Hhead as -> <-. by destruct Hv.
  - split; [by apply sublist_skip|]. split.
    + intros k' v' [Hhead | Hin]%elem_of_cons Hkept.
      * injection Hhead as -> ->. destruct Hkept as (_ & _ & Hnot).
        by destruct (Hnot inner).
      * apply list_elem_of_further. by apply IHkept.
    + intros k' inner' [Hhead | Hin]%elem_of_cons.
      * injection Hhead as -> ->. apply list_elem_of_here.
      * apply list_elem_of_further. by apply IHdict.
  - split; [by apply sublist_skip|]. split.
    + intros k' v' [Hhead | Hin]%elem_of_cons Hkept.
      * injection Hhead as -> ->. apply list_elem_of_here.
      * apply list_elem_of_further. by apply IHkept.
    + intros k' inner [Hhead | Hin]%elem_of_cons.
      * injection Hhead as -> <-. destruct Hv as (_ & _ & Hnot).
        by destruct (Hnot inner).
      * apply list_elem_of_further. by apply IHdict.
Qed.

Lemma remove_empty_values_keeps_witness :
  ("name", VStr "Titanic") ∈ _remove_empty_values Openml.titanic.
Proof.
  apply (proj1 (proj2 (remove_empty_values_keeps Openml.titanic))
           "name" (VStr "Titanic")).
  - apply elem_of_cons. right. apply elem_of_cons. left. reflexivity.
  - split; [intros X; discriminate X|].
    split; [intros X; discriminate X | intros inner X; discriminate X].
Defined.

(** ** Data types *)

Lemma same_set_texts (names texts : list string) :
  same_set (VStr <$> names) texts = true
  ↔ (list_to_set names : gset string) = list_to_set texts.
Proof.
  unfold same_set. rewrite andb_true_iff, !forallb_forall.
  assert (Hin : ∀ (x : string) (l : list string),
            existsb (equals_str (VStr x)) l = true ↔ x ∈ l).
  { intros x l. rewrite existsb_exists. split.
    - intros (t & Ht%list_elem_of_In & Heq). cbn in Heq.
      by apply bool_decide_eq_true in Heq as ->.
    - intros Hx. exists x. split; [by apply list_elem_of_In|].
      cbn. by apply bool_decide_eq_true. }
  assert (Hni : ∀ (t : string) (l : list string),
            existsb (λ x, equals_str x t) (VStr <$> l) = true ↔ t ∈ l).
  { intros t l. rewrite existsb_exists. split.
    - intros (x & Hx%list_elem_of_In & Heq).
      apply list_elem_of_fmap in Hx as (s & -> & Hs). cbn in Heq.
      by apply bool_decide_eq_true in Heq as <-.
    - intros Ht. exists (VStr t). split.
      + apply list_elem_of_In. by apply list_elem_of_fmap_2.
      + cbn. by apply bool_decide_eq_true. }
  split.
  - intros [Hsub Hsup]. apply set_eq. intros x. rewrite !elem_of_list_to_set.
    split.
    + intros Hx. apply Hin, Hsub, list_elem_of_In. by apply list_elem_of_fmap_2.
    + intros Hx. apply Hni, Hsup. by apply list_elem_of_In.
  - intros Heq. split.
    + intros x Hx%list_elem_of_In. apply list_elem_of_fmap in Hx as (s & -> & Hs).
      apply Hin. apply (elem_of_list_to_set (C := gset string)).
      rewrite <- Heq. by apply elem_of_list_to_set.
    + intros t Ht%list_elem_of_In. apply Hni.
      apply (elem_of_list_to_set (C := gset string)).
      rewrite Heq. by apply elem_of_list_to_set.
Qed.

Lemma texts_hashable (names : list string) :
  forallb hashable (VStr <$> names) = true.
Proof. induction names as [|x names IH]; [done|]. cbn. exact IH. Qed.

(** X17. A feature whose nominal values are texts is a Boolean exactly
    when the set of these texts is TRUE and FALSE, or 0 and 1, whatever
    their order and however often each occurs, and then whatever its
    OpenML data type is. *)
Theorem datatype_boolean (str_other : value → string)
    (openml_datatype : value) (names : list string) :
  _datatype str_other openml_datatype (VList (VStr <$> names)) = Return "Boolean"
  ↔ (list_to_set names : gset string) = {["TRUE"; "FALSE"]}
    ∨ (list_to_set names : gset string) = {["0"; "1"]}.
Proof.
  assert (Hsets : ∀ a b : string,
            ({[a; b]} : gset string) = list_to_set [a; b]).
  { intros a b. cbn. by rewrite (right_id_L ∅ (∪)). }
  rewrite !Hsets, <- !same_set_texts.
  unfold _datatype. cbn. rewrite texts_hashable. cbn.
  destruct (same_set (VStr <$> names) ["TRUE"; "FALSE"]) eqn:Htf;
    [cbn; by split; auto|].
  destruct (same_set (VStr <$> names) ["0"; "1"]) eqn:H01;
    [cbn; by split; auto|].
  cbn. split; [|by intros [? | ?]].
  destruct (hashable openml_datatype); [|done].
  destruct (equals_str openml_datatype "numeric"); [done|].
  destruct (equals_str openml_datatype "string"); [done|].
  by destruct (equals_str openml_datatype "nominal").
Qed.

(** X18. [_datatype] returns nothing but Boolean, Number or Text; and
    for a feature without nominal values whose data type is a text
    other than numeric, string and nominal, it fails with a
    [ValueError] whose message names that data type. *)
Theorem datatype_range (str_other : value → string)
    (openml_datatype nominal_value : value) :
  (∀ t, _datatype str_other openml_datatype nominal_value = Return t →
        t ∈ ["Boolean"; "Number"; "Text"])
  ∧ (∀ s, openml_datatype = VStr s → nominal_value = VNone →
          s ∉ ["numeric"; "string"; "nominal"] →
          ∃ msg, _datatype str_other openml_datatype nominal_value
                 = Raise (ValueError msg)
                 ∧ mentions msg s).
Proof.
  split.
  - intros t. unfold _datatype.
    destruct (is_none nominal_value); cbn.
    2:{ destruct (elements nominal_value) as [elems|e]; cbn; [|done].
        destruct (same_set elems ["TRUE"; "FALSE"] || same_set elems ["0"; "1"]).
        { intros [= <-]. set_solver. }
        destruct (hashable openml_datatype); [|done].
        destruct (equals_str openml_datatype "numeric"); [intros [= <-]; set_solver|].
        destruct (equals_str openml_datatype "string"); [intros [= <-]; set_solver|].
        destruct (equals_str openml_datatype "nominal"); [intros [= <-]; set_solver|].
        done. }
    destruct (hashable openml_datatype); [|done].
    destruct (equals_str openml_datatype "numeric"); [intros [= <-]; set_solver|].
    destruct (equals_str openml_datatype "string"); [intros [= <-]; set_solver|].
    destruct (equals_str openml_datatype "nominal"); [intros [= <-]; set_solver|].
    done.
  - intros s -> -> Hs. unfold _datatype. cbn.
    rewrite !bool_decide_eq_false_2 by (intros ->; set_solver).
    eexists. split; [reflexivity|].
    exists "Unknown datatype: ", ".". reflexivity.
Qed.

Lemma datatype_range_witness :
  ∃ msg, _datatype (λ _, "") (VStr "date") VNone = Raise (ValueError msg)
         ∧ mentions msg "date".
Proof.
  apply (proj2 (datatype_range (λ _, "") (VStr "date") VNone) "date" eq_refl eq_refl).
  apply (bool_decide_unpack _). vm_compute. exact I.
Defined.

(** ** Row identifiers *)

Lemma mapM_Return_fmap {A B : Type} (f : A → outcome B) (g : A → B) (l : list A) :
  Forall (λ x, f x = Return (g x)) l → mapM f l = Return (g <$> l).
Proof.
  induction 1 as [|x l Hx _ IH]; [done|].
  cbn. rewrite Hx. cbn. by rewrite IH.
Qed.

Lemma mapM_Raise_first {A B : Type} (f : A → outcome B) (good rest : list A)
    (x : A) (e : error) :
  Forall (λ x, ∃ y, f x = Return y) good → f x = Raise e →
  mapM f (good ++ x :: rest) = Raise e.
Proof.
  intros Hgood Hx. induction Hgood as [|g good [y Hg] _ IH]; cbn.
  - by rewrite Hx.
  - rewrite Hg. cbn. by rewrite IH.
Qed.

Lemma mapM_Return_length {A B : Type} (f : A → outcome B) (l : list A) (k : list B) :
  mapM f l = Return k → length k = length l.
Proof.
  revert k. induction l as [|x l IH]; intros k; cbn.
  - by intros [= <-].
  - destruct (f x) as [y|e]; cbn; [|done].
    destruct (mapM f l) as [k'|e]; cbn; [|done].
    intros [= <-]. cbn. by rewrite (IH k').
Qed.

Lemma row_identifier_of_described (f : list (string * value)) :
  described f →
  row_identifier_of f = Return (if flagged f then Some (reference_of f) else None).
Proof.
  intros [[flag Hflag] [name Hname]].
  unfold row_identifier_of, flagged, reference_of, subscript.
  rewrite Hflag. cbn. destruct (equals_str flag "true"); [|done].
  by rewrite Hname.
Qed.

Lemma omap_flagged (features : list (list (string * value))) :
  omap id ((λ f, if flagged f then Some (reference_of f) else None) <$> features)
  = reference_of <$> List.filter flagged features.
Proof.
  induction features as [|f features IH]; [done|].
  cbn. destruct (flagged f); cbn; by rewrite IH.
Qed.

(** X19. For features that each carry a row-identifier mark and a text
    as name, [_row_identifier] returns nothing when no feature is
    marked, the reference to the sanitized name of the feature when one
    is, and the list of these references, in the order of the features,
    when several are; the name of the distribution plays no part.  A
    feature without the mark makes it fail with a [KeyError]. *)
Theorem row_identifier_by_count (features : list (list (string * value)))
    (distribution_source : string) :
  (Forall described features →
   _row_identifier features distribution_source
   = Return match reference_of <$> List.filter flagged features with
            | [] => VNone
            | [only] => only
            | several => VList several
            end)
  ∧ (∀ good f rest,
       features = good ++ f :: rest → Forall described good →
       dict_get "is_row_identifier" f = None →
       _row_identifier features distribution_source
       = Raise (KeyError "is_row_identifier")).
Proof.
  split.
  - intros Hall. unfold _row_identifier.
    rewrite (mapM_Return_fmap row_identifier_of
               (λ f, if flagged f then Some (reference_of f) else None)).
    2:{ eapply Forall_impl; [exact Hall|]. apply row_identifier_of_described. }
    cbn. rewrite omap_flagged.
    by destruct (reference_of <$> List.filter flagged features) as [|x [|y l]].
  - intros good f rest -> Hgood Hf. unfold _row_identifier.
    rewrite (mapM_Raise_first row_identifier_of good rest f
               (KeyError "is_row_identifier")); [done| |].
    + eapply Forall_impl; [exact Hgood|]. intros g Hg.
      eexists. by apply row_identifier_of_described.
    + unfold row_identifier_of, subscript. by rewrite Hf.
Qed.

Lemma row_identifier_by_count_witness :
  _row_identifier [Openml.survived; Openml.ticket] "titanic_arff"
  = Return match reference_of
                   <$> List.filter flagged [Openml.survived; Openml.ticket] with
           | [] => VNone
           | [only] => only
           | several => VList several
           end.
Proof.
  apply (proj1 (row_identifier_by_count [Openml.survived; Openml.ticket]
                  "titanic_arff")).
  apply Forall_cons. split.
  { split; [exists (VStr "false") | exists "survived"]; reflexivity. }
  apply Forall_cons. split; [|apply Forall_nil_2].
  split; [exists (VStr "true") | exists "Ticket No"]; reflexivity.
Defined.

(** ** Dates *)

(** X20. [_lenient_date_parser] returns a value only for a text of four
    characters that starts with 19 or 20, and this value is the date the
    first of January of that year; for any other text that the date
    library parses or refuses as a date, it fails with a [ValueError]:
    what the date library made of the text is not used. *)
Theorem lenient_date_parser_years (dateutil_parse : value → outcome value)
    (int_of : string → outcome Z) (date_of : Z → nat → nat → outcome value)
    (str_other : value → string) (value : Converter.value) :
  (∀ v, _lenient_date_parser dateutil_parse int_of date_of str_other value
        = Return v →
        ∃ s year,
          value = VStr s ∧ String.length s = 4
          ∧ (String.prefix "19" s = true ∨ String.prefix "20" s = true)
          ∧ int_of s = Return year ∧ date_of year 1 1 = Return v)
  ∧ (∀ s, value = VStr s →
          (∃ parsed, dateutil_parse value = Return parsed)
          ∨ dateutil_parse value = Raise ParserError →
          String.length s ≠ 4
          ∨ (String.prefix "19" s = false ∧ String.prefix "20" s = false) →
          _lenient_date_parser dateutil_parse int_of date_of str_other value
          = Raise (ValueError ("Unknown date/datetime format: " +:+ s))).
Proof.
  split.
  - intros v. unfold _lenient_date_parser.
    destruct (dateutil_parse value) as [parsed|[]]; cbn; try done.
    all: destruct value as [| | | |s|items|members| |]; cbn; try done.
    all: try (case_bool_decide; cbn; done).
    all: case_bool_decide as Hlen; cbn; [|done].
    all: destruct (String.prefix "19" s) eqn:H19; cbn;
      [|destruct (String.prefix "20" s) eqn:H20; cbn; [|done]].
    all: destruct (int_of s) as [year|e] eqn:Hint; cbn; [|done].
    all: intros Hdate; exists s, year; by auto 10.
  - intros s -> Hparse Hshape. unfold _lenient_date_parser.
    assert (Hfirst : match dateutil_parse (VStr s) with
                     | Return _ => Return ()
                     | Raise ParserError => Return ()
                     | Raise e => Raise e
                     end = Return ()).
    { destruct Hparse as [[parsed ->] | ->]; done. }
    rewrite Hfirst. cbn.
    destruct Hshape as [Hlen | [H19 H20]].
    + by rewrite bool_decide_eq_false_2.
    + case_bool_decide; cbn; [|done]. by rewrite H19, H20.
Qed.

Lemma lenient_date_parser_years_witness :
  _lenient_date_parser Openml.dateutil_parse Openml.int_of Openml.date_of
    Openml.str_other (VStr "2000-01-01")
  = Raise (ValueError ("Unknown date/datetime format: " +:+ "2000-01-01")).
Proof.
  apply (proj2 (lenient_date_parser_years Openml.dateutil_parse Openml.int_of
                  Openml.date_of Openml.str_other (VStr "2000-01-01"))
           "2000-01-01" eq_refl).
  - left. exists (VObject "datetime"). reflexivity.
  - left. vm_compute. intros X. discriminate X.
Defined.

(** ** The conversion *)

Lemma get_field_plain (json_dict : list (string * value)) (field : string) :
  _get_field json_dict field None = Return (plain_field json_dict field).
Proof. unfold _get_field, plain_field. by destruct (dict_get field json_dict). Qed.

Section ConvertFacts.
Variable str_other : value → string.
Variable dateutil_parse : value → outcome value.
Variable language_of : value → outcome value.
Variable int_of : string → outcome Z.
Variable date_of : Z → nat → nat → outcome value.

Ltac run :=
  cbn [mapM REQUIRED_FIELDS mbind mret outcome_bind outcome_ret omap fst snd
       list_omap any_text existsb negb orb andb].

Lemma missing_cases (openml_dataset : list (string * value)) :
  missing openml_dataset
  = (if is_none (plain_field openml_dataset "name") then ["name"] else [])
    ++ (if is_none (plain_field openml_dataset "description")
        then ["description"] else []).
Proof.
  unfold missing. cbn [REQUIRED_FIELDS List.filter].
  by destruct (is_none (plain_field openml_dataset "name")),
              (is_none (plain_field openml_dataset "description")).
Qed.

(** X21. [convert] refuses a dataset that lacks a required field, or
    has it as [None], before it looks at anything else: it fails with a
    [ValueError] that lists the missing fields, in the order of
    [REQUIRED_FIELDS], whatever the features are. *)
Theorem convert_required (openml_dataset : list (string * value))
    (openml_features : list (list (string * value))) :
  missing openml_dataset ≠ [] →
  convert str_other dateutil_parse language_of int_of date_of
    openml_dataset openml_features
  = Raise (ValueError ("Required fields missing: "
                         +:+ String.concat " " (missing openml_dataset) +:+ ".")).
Proof.
  rewrite missing_cases. intros Hmissing.
  unfold convert. run. rewrite !get_field_plain. run.
  destruct (is_none (plain_field openml_dataset "name"));
    destruct (is_none (plain_field openml_dataset "description"));
    run; try reflexivity.
  by destruct Hmissing.
Qed.

Lemma missing_nil (openml_dataset : list (string * value)) :
  missing openml_dataset = [] →
  is_none (plain_field openml_dataset "name") = false
  ∧ is_none (plain_field openml_dataset "description") = false.
Proof.
  rewrite missing_cases.
  by destruct (is_none (plain_field openml_dataset "name")),
              (is_none (plain_field openml_dataset "description")).
Qed.

(** X22. With the required fields present, [convert] fails on the url
    of the dataset before any other field is transformed: with a
    [TypeError] when there is no url (the file object is then [None],
    and its name is asked for), with a [ValueError] that quotes the url
    when it ends neither in .arff nor in .pq, and with an
    [AttributeError] when the url is a boolean, a number, a list or a
    dict. *)
Theorem convert_file (openml_dataset : list (string * value))
    (openml_features : list (list (string * value))) (e : error) :
  missing openml_dataset = [] →
  match plain_field openml_dataset "url" with
  | VNone => e = TypeError
  | VStr u =>
      endswith u ".arff" = false ∧ endswith u ".pq" = false
      ∧ e = ValueError ("Unrecognized file extension in url: " +:+ u)
  | VBool _ | VInt _ | VReal _ | VList _ | VDict _ => e = AttributeError
  | VDate _ _ _ | VObject _ => False
  end →
  convert str_other dateutil_parse language_of int_of date_of
    openml_dataset openml_features
  = Raise e.
Proof.
  intros [Hname Hdesc]%missing_nil Hurl.
  unfold convert. run. rewrite !get_field_plain. run.
  rewrite Hname, Hdesc. run.
  destruct (plain_field openml_dataset "url") as [| | | |u| | | |];
    cbn [_file_object]; run; try (by subst e); try (by destruct Hurl).
  destruct Hurl as (-> & -> & ->). run. reflexivity.
Qed.
Ltac run_in H :=
  cbn [mapM REQUIRED_FIELDS mbind mret outcome_bind outcome_ret omap fst snd
       list_omap any_text existsb negb orb andb] in H.

Ltac is_kept :=
  let X := fresh in
  split; [intros X; discriminate X|];
  split; [intros X; discriminate X | intros ? X; discriminate X].

Ltac bind_in H :=
  match type of H with
  | mbind _ ?e = _ =>
      let E := fresh "E" in
      destruct e eqn:E; cbn [mbind outcome_bind] in H; [|discriminate H]
  end.

Lemma no_empty_cons k v rest :
  no_empty_value (VDict ((k, v) :: rest))
  = match v with
    | VNone => false
    | VList [] => false
    | _ => no_empty_value v && no_empty_value (VDict rest)
    end.
Proof. reflexivity. Qed.

Lemma Return_inj {A : Type} (a b : A) : Return a = Return b → a = b.
Proof. by intros [= ->]. Qed.

Lemma dict_get_cons_ne k k' v rest :
  k' ≠ k → dict_get k ((k', v) :: rest) = dict_get k rest.
Proof. intros Hne. cbn [dict_get]. by rewrite bool_decide_eq_false_2. Qed.

Lemma dict_get_cons_eq k v rest : dict_get k ((k, v) :: rest) = Some v.
Proof. cbn [dict_get]. by rewrite bool_decide_eq_true_2. Qed.

Lemma dict_get_remove_kept k v d :
  dict_get k d = Some v → kept v →
  dict_get k (_remove_empty_values d) = Some v.
Proof.
  intros Hget (Hnone & Hnil & Hdict).
  induction d as [|[k' x] rest IH]; [done|].
  cbn [dict_get] in Hget. case_bool_decide as Hk.
  - injection Hget as ->. subst k'.
    destruct v as [| | | | | [|y items] |inner| |]; cbn [_remove_empty_values dict_get];
      try done; try (by rewrite bool_decide_eq_true_2).
    by destruct (Hdict inner).
  - specialize (IH Hget).
    destruct x as [| | | | | [|y items] |inner| |]; cbn [_remove_empty_values dict_get];
      try done; by rewrite bool_decide_eq_false_2.
Qed.

Lemma dict_get_dict_set_eq k v d :
  is_Some (dict_get k d) → dict_get k (dict_set k v d) = Some v.
Proof.
  induction d as [|[k' x] rest IH]; cbn [dict_get dict_set]; [by intros [? ?]|].
  case_bool_decide as Hk; cbn [dict_get].
  - by rewrite bool_decide_eq_true_2.
  - rewrite bool_decide_eq_false_2 by done. exact IH.
Qed.

Lemma dict_get_dict_set_ne k k' v d :
  k ≠ k' → dict_get k' (dict_set k v d) = dict_get k' d.
Proof.
  intros Hne. induction d as [|[k'' x] rest IH]; [done|].
  cbn [dict_get dict_set]. case_bool_decide as Hk; cbn [dict_get].
  - subst k''. by rewrite !bool_decide_eq_false_2.
  - by rewrite IH.
Qed.

Lemma no_empty_dict_set k x items d :
  no_empty_value (VDict d) = true →
  no_empty_value (VDict (dict_set k (VList (x :: items)) d)) = true.
Proof.
  induction d as [|[k' v] rest IH]; [done|].
  rewrite no_empty_cons. intros Hd. cbn [dict_set].
  case_bool_decide; rewrite no_empty_cons.
  - destruct v as [| | | | | [|y l] | | |]; try done;
      apply andb_true_iff in Hd as [_ Hd]; exact Hd.
  - destruct v as [| | | | | [|y l] | | |]; try done;
      apply andb_true_iff in Hd as [Hv Hd]; by rewrite Hv, IH.
Qed.

Lemma clean_record_sets_single croissant members :
  dict_get "recordSet" croissant = Some (VList [VDict members]) →
  clean_record_sets croissant
  = Return (dict_set "recordSet" (VList [VDict (_remove_empty_values members)])
              croissant).
Proof.
  intros Hget. unfold clean_record_sets, subscript. rewrite Hget. reflexivity.
Qed.

Lemma dict_get_absent k (d : list (string * value)) :
  k ∉ d.*1 → dict_get k d = None.
Proof.
  induction d as [|[k' x] rest IH]; [done|].
  cbn [fmap list_fmap fst dict_get]. intros [Hne Hrest]%not_elem_of_cons.
  rewrite bool_decide_eq_false_2 by done. by apply IH.
Qed.

Lemma dict_get_remove_absent k d :
  dict_get k d = None → dict_get k (_remove_empty_values d) = None.
Proof.
  induction d as [|[k' x] rest IH]; [done|].
  cbn [dict_get]. case_bool_decide as Hk; [intros X; discriminate X|].
  intros Hrest. specialize (IH Hrest).
  destruct x as [| | | | | [|y items] |inner| |];
    cbn [_remove_empty_values dict_get]; try exact IH;
    by rewrite bool_decide_eq_false_2.
Qed.

Lemma dict_get_remove k v d :
  NoDup d.*1 → dict_get k d = Some v →
  dict_get k (_remove_empty_values d)
  = match v with
    | VNone | VList [] => None
    | _ => Some (remove_empty v)
    end.
Proof.
  induction d as [|[k' x] rest IH]; [intros _ X; discriminate X|].
  cbn [fmap list_fmap fst dict_get]. intros [Hfresh Hnodup]%NoDup_cons.
  case_bool_decide as Hk.
  - intros Hv. apply Some_inj in Hv. subst k' x.
    pose proof (dict_get_remove_absent k rest (dict_get_absent k rest Hfresh))
      as Hrest.
    destruct v as [| | | | | [|y items] |inner| |];
      cbn [_remove_empty_values dict_get]; try exact Hrest;
      by rewrite bool_decide_eq_true_2.
  - intros Hget. specialize (IH Hnodup Hget).
    destruct x as [| | | | | [|y items] |inner| |];
      cbn [_remove_empty_values dict_get]; try exact IH;
      by rewrite bool_decide_eq_false_2.
Qed.

Lemma convert_second_pass (version creator contributor dateCreated dateModified
    datePublished inLanguage license status keywords citation sameAs url file key
    description : value)
    (name source : string) (fields : list value) (n : nat)
    (doc : list (string * value)) :
  length fields = n →
  (n = 0 → key = VNone) →
  clean_record_sets
    (_remove_empty_values
       [("@context", context); ("@type", VStr "sc:Dataset");
        ("@language", VStr "en"); ("name", VStr name);
        ("description", description); ("version", version);
        ("creator", creator); ("contributor", contributor);
        ("dateCreated", dateCreated); ("dateModified", dateModified);
        ("datePublished", datePublished); ("inLanguage", inLanguage);
        ("isAccessibleForFree", VBool true); ("license", license);
        ("creativeWorkStatus", status); ("keywords", keywords);
        ("citation", citation); ("sameAs", sameAs); ("url", url);
        ("distribution", VList [file]);
        ("recordSet",
         VList [VDict [("name", VStr (_sanitize_name_string name +:+ "_records"));
                       ("@type", VStr "ml:RecordSet");
                       ("source", VStr ("#{" +:+ source +:+ "}"));
                       ("key", key); ("field", VList fields)]])])
  = Return doc →
  no_empty_value (VDict doc) = true
  ∧ dict_get "name" doc = Some (VStr name)
  ∧ dict_get "distribution" doc = Some (VList [file])
  ∧ dict_get "creator" doc
    = match creator with
      | VNone | VList [] => None
      | _ => Some (remove_empty creator)
      end
  ∧ ∃ record_set,
      dict_get "recordSet" doc = Some (VList [VDict record_set])
      ∧ no_empty_value (VDict record_set) = true
      ∧ dict_get "name" record_set
        = Some (VStr (_sanitize_name_string name +:+ "_records"))
      ∧ match n with
        | 0 => dict_get "field" record_set = None
        | _ => dict_get "field" record_set = Some (VList fields)
        end.
Proof.
  intros Hlen Hkey H.
  match type of H with
  | clean_record_sets (_remove_empty_values ?c) = _ => set (croissant := c) in H
  end.
  set (record_set :=
         [("name", VStr (_sanitize_name_string name +:+ "_records"));
          ("@type", VStr "ml:RecordSet");
          ("source", VStr ("#{" +:+ source +:+ "}"));
          ("key", key); ("field", VList fields)]) in *.
  assert (Hrs : dict_get "recordSet" (_remove_empty_values croissant)
                = Some (VList [VDict record_set])).
  { apply dict_get_remove_kept; [|is_kept].
    subst croissant. repeat (rewrite dict_get_cons_ne by discriminate).
    apply dict_get_cons_eq. }
  rewrite (clean_record_sets_single _ _ Hrs) in H.
  apply Return_inj in H. subst doc.
  split.
  { apply no_empty_dict_set. rewrite <- remove_empty_dict.
    apply remove_empty_no_empty. }
  split.
  { rewrite dict_get_dict_set_ne by discriminate.
    apply dict_get_remove_kept; [|is_kept].
    subst croissant. repeat (rewrite dict_get_cons_ne by discriminate).
    apply dict_get_cons_eq. }
  split.
  { rewrite dict_get_dict_set_ne by discriminate.
    apply dict_get_remove_kept; [|is_kept].
    subst croissant. repeat (rewrite dict_get_cons_ne by discriminate).
    apply dict_get_cons_eq. }
  split.
  { rewrite dict_get_dict_set_ne by discriminate.
    apply dict_get_remove.
    - subst croissant. cbn [fmap list_fmap fst].
      apply (bool_decide_unpack _). vm_compute. exact I.
    - subst croissant. repeat (rewrite dict_get_cons_ne by discriminate).
      apply dict_get_cons_eq. }
  exists (_remove_empty_values record_set).
  split.
  { apply dict_get_dict_set_eq. rewrite Hrs. by eexists. }
  split; [rewrite <- remove_empty_dict; apply remove_empty_no_empty|].
  split.
  { subst record_set. cbn [_remove_empty_values]. apply dict_get_cons_eq. }
  destruct n as [|n].
  - destruct fields; [|discriminate Hlen].
    subst record_set. rewrite (Hkey eq_refl). cbn [_remove_empty_values].
    repeat (rewrite dict_get_cons_ne by discriminate). reflexivity.
  - apply dict_get_remove_kept.
    + subst record_set. repeat (rewrite dict_get_cons_ne by discriminate).
      apply dict_get_cons_eq.
    + destruct fields as [|x fields]; [discriminate Hlen|]. is_kept.
Qed.

Lemma bind_Return {A B : Type} (m : outcome A) (k : A → outcome B) (b : B) :
  mbind k m = Return b → ∃ a, m = Return a ∧ k a = Return b.
Proof. destruct m as [a|e]; [by exists a | intros X; discriminate X]. Qed.

Lemma row_identifier_none source : _row_identifier [] source = Return VNone.
Proof. reflexivity. Qed.

Lemma file_object_returns (name u : string) (md5 file : value) :
  _file_object str_other (VStr name) (VStr u) md5 = Return file →
  (endswith u ".arff" = true ∨ endswith u ".pq" = true)
  ∧ file = VDict [("name", VStr (name +:+ "_" +:+
                            (if endswith u ".arff" then "arff" else "parquet")));
                  ("@type", VStr "sc:FileObject");
                  ("contentUrl", VStr u);
                  ("encodingFormat",
                   VStr (if endswith u ".arff" then "text/plain"
                         else "application/vnd.apache.parquet"));
                  ("md5", md5)].
Proof.
  unfold _file_object.
  destruct (endswith u ".arff"); [|destruct (endswith u ".pq")];
    cbn [mbind outcome_bind fst snd py_str]; intros X;
    [| |discriminate X]; apply Return_inj in X; subst file; auto.
Qed.

(** The calls of [convert] one after the other, for a run that returns:
    what is left is the second pass on the document as built. *)
Ltac convert_returns H :=
  let Hn := fresh "Hn" in
  let Hrecords := fresh "Hrecords" in
  let Hplus := fresh "Hplus" in
  let Hkey := fresh "Hkey" in
  let Hsource := fresh "Hsource" in
  let X := fresh "X" in
  unfold convert in H; run_in H; rewrite !get_field_plain in H; run_in H;
  destruct (is_none (plain_field _ "name")) eqn:Hn; run_in H;
    [destruct (is_none (plain_field _ "description")); run_in H;
     discriminate H|];
  destruct (is_none (plain_field _ "description")); run_in H;
    [discriminate H|];
  apply bind_Return in H as (file & Hfile & H);
  apply bind_Return in H as (? & Hsource & H);
  apply bind_Return in H as (? & _ & H);
  apply bind_Return in H as (creator & Hcreator & H);
  apply bind_Return in H as (? & _ & H);
  apply bind_Return in H as (? & _ & H);
  apply bind_Return in H as (? & _ & H);
  apply bind_Return in H as (? & _ & H);
  apply bind_Return in H as (? & _ & H);
  apply bind_Return in H as (? & Hrecords & H);
  apply bind_Return in H as (? & Hplus & H);
  apply bind_Return in H as (key & Hkey & H);
  apply bind_Return in H as (fields & Hfields & H);
  apply mapM_Return_length in Hfields;
  unfold _get_field in Hrecords;
  unfold plain_field at 1 2 in Hfile; unfold plain_field at 1 in H;
  unfold plain_field in Hn;
  destruct (dict_get "name" _) as [[| | | |name| | | |]|] eqn:Hname;
    try discriminate Hrecords; try discriminate Hn;
  cbn [sanitize_value mbind outcome_bind default] in Hrecords, H, Hfile;
  apply Return_inj in Hrecords; subst;
  cbn [plus_text] in Hplus; apply Return_inj in Hplus; subst;
  destruct (dict_get "url" _) as [[| | | |u| | | |]|] eqn:Hurl;
    cbn [default _file_object] in Hfile;
    try discriminate Hfile;
    try (apply Return_inj in Hfile; subst file; discriminate Hsource);
  apply file_object_returns in Hfile;
  clear Hsource;
  match type of Hkey with
  | _row_identifier ?feats _ = _ =>
      assert (Hnone : length feats = 0 → key = VNone)
        by (clear -Hkey; destruct feats; [|intros X; discriminate X];
            intros _; rewrite row_identifier_none in Hkey;
            apply Return_inj in Hkey; symmetry; exact Hkey)
  end;
  clear Hkey;
  lazymatch goal with
  | Hf : length _ = length _, Hk : _ → _ = VNone |- _ =>
      eapply convert_second_pass in H; [|exact Hf|exact Hk]
  end.

(** X23. A document that [convert] returns has no [None] and no empty
    list as a value of the document or of a dict nested in it; it
    carries the name of the dataset, which is a text; and it has exactly
    one record set, itself without such values, named after the
    sanitized name of the dataset, whose list of fields has one entry
    per feature, and is left out when there is no feature. *)
Theorem convert_document (openml_dataset : list (string * value))
    (openml_features : list (list (string * value)))
    (doc : list (string * value)) :
  convert str_other dateutil_parse language_of int_of date_of
    openml_dataset openml_features = Return doc →
  no_empty_value (VDict doc) = true
  ∧ ∃ name record_set,
      dict_get "name" openml_dataset = Some (VStr name)
      ∧ dict_get "name" doc = Some (VStr name)
      ∧ dict_get "recordSet" doc = Some (VList [VDict record_set])
      ∧ no_empty_value (VDict record_set) = true
      ∧ dict_get "name" record_set
        = Some (VStr (_sanitize_name_string name +:+ "_records"))
      ∧ match openml_features with
        | [] => dict_get "field" record_set = None
        | _ => ∃ fields, dict_get "field" record_set = Some (VList fields)
                         ∧ length fields = length openml_features
        end.
Proof.
  intros H.
  convert_returns H.
  destruct H as (Hclean & Hdocname & _ & _ & record_set & Hset & Hrs & Hrsname
                 & Hfield).
  split; [exact Hclean|].
  exists name, record_set.
  split; [reflexivity|].
  split; [exact Hdocname|]. split; [exact Hset|]. split; [exact Hrs|].
  split; [exact Hrsname|].
  destruct openml_features as [|feat feats]; [exact Hfield|].
  exists fields. split; [exact Hfield | exact Hfields].
Qed.

(** X24. A document that [convert] returns has exactly one file in its
    distribution, built from the name and the url of the dataset, which
    are texts, the url ending in .arff or in .pq, .arff taking
    precedence.  The cleaning does not reach this file: its md5 entry is
    there even when the dataset has no checksum, with [None] as its
    value. *)
Theorem convert_distribution (openml_dataset : list (string * value))
    (openml_features : list (list (string * value)))
    (doc : list (string * value)) :
  convert str_other dateutil_parse language_of int_of date_of
    openml_dataset openml_features = Return doc →
  ∃ name u,
    dict_get "name" openml_dataset = Some (VStr name)
    ∧ dict_get "url" openml_dataset = Some (VStr u)
    ∧ (endswith u ".arff" = true ∨ endswith u ".pq" = true)
    ∧ dict_get "distribution" doc
      = Some (VList
                [VDict [("name", VStr (name +:+ "_" +:+
                                  (if endswith u ".arff" then "arff" else "parquet")));
                        ("@type", VStr "sc:FileObject");
                        ("contentUrl", VStr u);
                        ("encodingFormat",
                         VStr (if endswith u ".arff" then "text/plain"
                               else "application/vnd.apache.parquet"));
                        ("md5", plain_field openml_dataset "md5_checksum")]]).
Proof.
  intros H.
  convert_returns H.
  destruct H as (_ & _ & Hdist & _). destruct Hfile as [Hext ->].
  exists name, u. split; [reflexivity|]. split; [reflexivity|].
  split; [exact Hext | exact Hdist].
Qed.

(** X25. The creator of a document that [convert] returns: there is no
    creator entry when the dataset has no creator, or has [None], the
    empty text or an empty list as creator; a creator that is a text
    gives one person of that name; a creator that is a list gives the
    list of the persons of its items, item by item, in which an item
    that is [None] or the empty text stays as [None]. *)
Theorem convert_creator (openml_dataset : list (string * value))
    (openml_features : list (list (string * value)))
    (doc : list (string * value)) :
  convert str_other dateutil_parse language_of int_of date_of
    openml_dataset openml_features = Return doc →
  (dict_get "creator" openml_dataset
     ∈ [None; Some VNone; Some (VStr ""); Some (VList [])] →
   dict_get "creator" doc = None)
  ∧ (∀ s, dict_get "creator" openml_dataset = Some (VStr s) → s ≠ "" →
       dict_get "creator" doc
       = Some (VDict [("@context", VStr "https://schema.org");
                      ("@type", VStr "sc:Person");
                      ("name", VStr s)]))
  ∧ (∀ x items,
       dict_get "creator" openml_dataset = Some (VList (x :: items)) →
       dict_get "creator" doc = Some (VList (_person <$> x :: items))).
Proof.
  intros H. convert_returns H. destruct H as (_ & _ & _ & Hdoc & _).
  clear -Hcreator Hdoc. unfold _get_field in Hcreator.
  split; [|split].
  - intros Hin. rewrite !elem_of_cons in Hin.
    destruct Hin as [Hd | [Hd | [Hd | [Hd | Hd]]]];
      [..|by apply not_elem_of_nil in Hd]; rewrite Hd in Hcreator;
      apply Return_inj in Hcreator; subst creator; exact Hdoc.
  - intros s Hd Hs. rewrite Hd in Hcreator. cbn [creators] in Hcreator.
    unfold _person in Hcreator. cbn [is_none equals_str orb] in Hcreator.
    rewrite bool_decide_eq_false_2 in Hcreator by exact Hs.
    apply Return_inj in Hcreator. subst creator. exact Hdoc.
  - intros x items Hd. rewrite Hd in Hcreator.
    apply Return_inj in Hcreator. subst creator. exact Hdoc.
Qed.

End ConvertFacts.

Lemma convert_required_witness :
  convert Openml.str_other Openml.dateutil_parse Openml.language_of
    Openml.int_of Openml.date_of Openml.titanic_name [Openml.survived]
  = Raise (ValueError ("Required fields missing: "
                         +:+ String.concat " " (missing Openml.titanic_name)
                         +:+ ".")).
Proof.
  apply (convert_required Openml.str_other Openml.dateutil_parse
           Openml.language_of Openml.int_of Openml.date_of
           Openml.titanic_name [Openml.survived]).
  vm_compute. intros X. discriminate X.
Defined.

Lemma convert_file_witness :
  convert Openml.str_other Openml.dateutil_parse Openml.language_of
    Openml.int_of Openml.date_of Openml.titanic_csv [Openml.survived]
  = Raise (ValueError ("Unrecognized file extension in url: "
                         +:+ "https://www.openml.org/data/titanic.csv")).
Proof.
  apply (convert_file Openml.str_other Openml.dateutil_parse
           Openml.language_of Openml.int_of Openml.date_of
           Openml.titanic_csv [Openml.survived]).
  - vm_compute. reflexivity.
  - vm_compute. repeat split.
Defined.

Lemma convert_document_witness :
  no_empty_value (VDict Openml.document) = true
  ∧ ∃ name record_set,
      dict_get "name" Openml.titanic = Some (VStr name)
      ∧ dict_get "name" Openml.document = Some (VStr name)
      ∧ dict_get "recordSet" Openml.document = Some (VList [VDict record_set])
      ∧ no_empty_value (VDict record_set) = true
      ∧ dict_get "name" record_set
        = Some (VStr (_sanitize_name_string name +:+ "_records"))
      ∧ ∃ fields, dict_get "field" record_set = Some (VList fields)
                  ∧ length fields = 1.
Proof.
  apply (convert_document Openml.str_other Openml.dateutil_parse
           Openml.language_of Openml.int_of Openml.date_of
           Openml.titanic [Openml.survived] Openml.document).
  vm_compute. reflexivity.
Defined.

Lemma convert_distribution_witness :
  ∃ name u,
    dict_get "name" Openml.titanic = Some (VStr name)
    ∧ dict_get "url" Openml.titanic = Some (VStr u)
    ∧ (endswith u ".arff" = true ∨ endswith u ".pq" = true)
    ∧ dict_get "distribution" Openml.document
      = Some (VList
                [VDict [("name", VStr (name +:+ "_" +:+
                                  (if endswith u ".arff" then "arff" else "parquet")));
                        ("@type", VStr "sc:FileObject");
                        ("contentUrl", VStr u);
                        ("encodingFormat",
                         VStr (if endswith u ".arff" then "text/plain"
                               else "application/vnd.apache.parquet"));
                        ("md5", plain_field Openml.titanic "md5_checksum")]]).
Proof.
  apply (convert_distribution Openml.str_other Openml.dateutil_parse
           Openml.language_of Openml.int_of Openml.date_of
           Openml.titanic [Openml.survived] Openml.document).
  vm_compute. reflexivity.
Defined.

Lemma convert_creator_witness : dict_get "creator" Openml.document = None.
Proof.
  apply (proj1 (convert_creator Openml.str_other Openml.dateutil_parse
                  Openml.language_of Openml.int_of Openml.date_of
                  Openml.titanic [Openml.survived] Openml.document
                  ltac:(vm_compute; reflexivity))).
  apply elem_of_cons. left. reflexivity.
Defined.

End ConverterFacts.
